(** * SAM.gov opportunity scraper: a shallow embedding of
      [sam_gov_scrapper.py] and the properties of its pipeline.

    Python [str] values are modelled as [string], read as UTF-8 text;
    [dict]s coming from decoded JSON are association lists in insertion
    order; the console, the clock, the HTTP transport and the file system
    are explicit state. JSON numbers with a fraction or an exponent
    (Python floats) are left out of the data model. *)

From Stdlib Require Import ZArith List String Ascii Lia Bool.
From Stdlib Require Import DecimalString DecimalFacts DecimalPos DecimalN DecimalZ.
From stdpp Require Import base tactics option list gmap strings.

Local Open Scope string_scope.
Local Open Scope Z_scope.

(** ** Python text primitives *)

(** The two operations of [str] that consult the Unicode character
    database of the interpreter: [str.lower] and [repr] on a [str]. *)
Class PyText := {
  str_lower : string -> string;
  str_repr : string -> string
}.

Definition dquote : ascii := "034"%char.
Definition squote : ascii := "039"%char.
Definition backslash : ascii := "092"%char.

(** [sep.join(parts)] *)
Fixpoint str_join (sep : string) (parts : list string) : string :=
  match parts with
  | [] => ""
  | x :: rest =>
      match rest with
      | [] => x
      | _ :: _ => x ++ sep ++ str_join sep rest
      end
  end.

Fixpoint str_startswith (s p : string) {struct p} : bool :=
  match p, s with
  | EmptyString, _ => true
  | String _ _, EmptyString => false
  | String a p', String b s' => Ascii.eqb a b && str_startswith s' p'
  end.

(** [needle in hay] on two [str] values *)
Fixpoint str_contains (needle hay : string) : bool :=
  str_startswith hay needle ||
  match hay with
  | EmptyString => false
  | String _ hay' => str_contains needle hay'
  end.

(** [s[n:]] *)
Fixpoint string_drop (n : nat) (s : string) : string :=
  match n, s with
  | O, _ => s
  | S n', String _ s' => string_drop n' s'
  | S _, EmptyString => EmptyString
  end.

(** The declarative reading of "occurs as a substring". *)
Definition is_substring (needle hay : string) : Prop :=
  exists pre post, hay = pre ++ needle ++ post.

(** ** Python objects decoded from JSON *)

Local Unset Elimination Schemes.

Inductive pyobj : Type :=
  | PyNone
  | PyBool (b : bool)
  | PyInt (z : Z)
  | PyStr (s : string)
  | PyList (items : list pyobj)
  | PyDict (entries : list (string * pyobj)).

Local Set Elimination Schemes.

Definition dict := list (string * pyobj).

Fixpoint dict_lookup (d : dict) (key : string) : option pyobj :=
  match d with
  | [] => None
  | (k, v) :: d' => if String.eqb k key then Some v else dict_lookup d' key
  end.

(** [d.get(key, default)] *)
Definition dict_get (d : dict) (key : string) (default : pyobj) : pyobj :=
  match dict_lookup d key with
  | Some v => v
  | None => default
  end.

(** [key in d] *)
Definition dict_has (d : dict) (key : string) : bool :=
  match dict_lookup d key with Some _ => true | None => false end.

Definition int_repr (z : Z) : string := NilZero.string_of_int (Z.to_int z).

Section StringForms.
Context `{PyText}.

(** [repr(v)] *)
Fixpoint py_repr (v : pyobj) : string :=
  match v with
  | PyNone => "None"
  | PyBool true => "True"
  | PyBool false => "False"
  | PyInt z => int_repr z
  | PyStr s => str_repr s
  | PyList items => "[" ++ str_join ", " (List.map py_repr items) ++ "]"
  | PyDict entries =>
      "{" ++ str_join ", "
               (List.map (fun kv => match kv with
                                    | (k, x) => str_repr k ++ ": " ++ py_repr x
                                    end) entries) ++ "}"
  end.

(** [str(v)] *)
Definition py_str (v : pyobj) : string :=
  match v with
  | PyStr s => s
  | _ => py_repr v
  end.

(** ** [filter_opportunities] *)

Definition searchable_text (opp : dict) : string :=
  str_lower (str_join " " [
    py_str (dict_get opp "title" (PyStr ""));
    py_str (dict_get opp "description" (PyStr ""));
    py_str (dict_get opp "type" (PyStr ""));
    py_str (dict_get opp "classificationCode" (PyStr ""))
  ]).

(** [all(keyword.lower() in searchable_text for keyword in ...)] *)
Definition all_keywords_present (must_include_keywords : list string)
    (text : string) : bool :=
  forallb (fun keyword => str_contains (str_lower keyword) text)
          must_include_keywords.

Definition filter_opportunities (opportunities : list dict)
    (must_include_keywords : list string) : list dict :=
  fold_left
    (fun (filtered : list dict) (opp : dict) =>
       if all_keywords_present must_include_keywords (searchable_text opp)
       then (filtered ++ [opp])%list
       else filtered)
    opportunities [].

(** The string form of a field as the search string uses it: empty when
    the field is missing. *)
Definition field_text (opp : dict) (key : string) : string :=
  match dict_lookup opp key with
  | Some v => py_str v
  | None => ""
  end.

End StringForms.

(** ** An interpreter instance for ASCII text

    On text made of ASCII characters [str.lower] maps [A-Z] to [a-z]
    and [repr] quotes and escapes as below; both are exact there. *)

Definition ascii_lower (c : ascii) : ascii :=
  let n := N_of_ascii c in
  if ((65 <=? n) && (n <=? 90))%N then ascii_of_N (n + 32) else c.

Fixpoint string_map (f : ascii -> ascii) (s : string) : string :=
  match s with
  | EmptyString => EmptyString
  | String c s' => String (f c) (string_map f s')
  end.

Fixpoint string_has (c : ascii) (s : string) : bool :=
  match s with
  | EmptyString => false
  | String b s' => Ascii.eqb b c || string_has c s'
  end.

Definition hex_digit (n : N) : ascii :=
  if (n <? 10)%N then ascii_of_N (48 + n) else ascii_of_N (87 + n).

Definition repr_char (quote c : ascii) : string :=
  let n := N_of_ascii c in
  if Ascii.eqb c quote || Ascii.eqb c backslash then String backslash (String c "")
  else if (n =? 9)%N then String backslash "t"
  else if (n =? 10)%N then String backslash "n"
  else if (n =? 13)%N then String backslash "r"
  else if ((n <? 32) || (n =? 127))%N
       then String backslash
              (String "x" (String (hex_digit (n / 16)) (String (hex_digit (n mod 16)) "")))
  else String c "".

Fixpoint repr_chars (quote : ascii) (s : string) : string :=
  match s with
  | EmptyString => EmptyString
  | String c s' => repr_char quote c ++ repr_chars quote s'
  end.

Definition ascii_repr (s : string) : string :=
  let quote :=
    if string_has squote s && negb (string_has dquote s) then dquote else squote in
  String quote (repr_chars quote s ++ String quote "").

#[export] Instance ascii_text : PyText := {
  str_lower := string_map ascii_lower;
  str_repr := ascii_repr
}.

(** ** Dates: the part of Python's [datetime] the scraper uses *)

Record datetime := {
  year : Z; month : Z; day : Z;
  hour : Z; minute : Z; second : Z
}.

Definition is_leap (y : Z) : bool :=
  (y mod 4 =? 0) && (negb (y mod 100 =? 0) || (y mod 400 =? 0)).

Definition days_before_year (y : Z) : Z :=
  let p := y - 1 in p * 365 + p / 4 - p / 100 + p / 400.

Definition days_in_month_table : list Z :=
  [-1; 31; 28; 31; 30; 31; 30; 31; 31; 30; 31; 30; 31].

Definition days_before_month_table : list Z :=
  [-1; 0; 31; 59; 90; 120; 151; 181; 212; 243; 273; 304; 334].

Definition days_before_month (y m : Z) : Z :=
  nth (Z.to_nat m) days_before_month_table 0 +
  (if (2 <? m) && is_leap y then 1 else 0).

Definition ymd2ord (y m d : Z) : Z :=
  days_before_year y + days_before_month y m + d.

Definition DI400Y : Z := days_before_year 401.
Definition DI100Y : Z := days_before_year 101.
Definition DI4Y : Z := days_before_year 5.

Definition ord2ymd (ordinal : Z) : Z * Z * Z :=
  let n := ordinal - 1 in
  let n400 := n / DI400Y in
  let n := n mod DI400Y in
  let y := n400 * 400 + 1 in
  let n100 := n / DI100Y in
  let n := n mod DI100Y in
  let n4 := n / DI4Y in
  let n := n mod DI4Y in
  let n1 := n / 365 in
  let n := n mod 365 in
  let y := y + n100 * 100 + n4 * 4 + n1 in
  if (n1 =? 4) || (n100 =? 4) then (y - 1, 12, 31)
  else
    let leapyear := (n1 =? 3) && (negb (n4 =? 24) || (n100 =? 3)) in
    let m := Z.shiftr (n + 50) 5 in
    let preceding :=
      nth (Z.to_nat m) days_before_month_table 0 +
      (if (2 <? m) && leapyear then 1 else 0) in
    if n <? preceding then
      let m := m - 1 in
      let preceding :=
        preceding -
        (nth (Z.to_nat m) days_in_month_table 0 +
         (if (m =? 2) && leapyear then 1 else 0)) in
      (y, m, n - preceding + 1)
    else (y, m, n - preceding + 1).

Definition MAXORDINAL : Z := 3652059.
Definition MAX_DELTA_DAYS : Z := 999999999.

(** Decimal digits of a non-negative number, left-padded with zeros
    to [width]: the [%m], [%d], [%H], [%M], [%S] and [%Y] fields. For
    [%Y] the padding matters below the year 1000 only, where it is the
    platform's: CPython leaves the field to the C library, and glibc
    writes such a year without padding. *)
Fixpoint zeros (n : nat) : string :=
  match n with
  | O => EmptyString
  | S n' => String "0" (zeros n')
  end.

Definition zero_pad (width : nat) (s : string) : string :=
  zeros (width - String.length s) ++ s.

Definition field (width : nat) (n : Z) : string :=
  zero_pad width (int_repr n).

(** [dt.strftime("%m/%d/%Y")] *)
Definition strftime_mdY (dt : datetime) : string :=
  field 2 (month dt) ++ "/" ++ field 2 (day dt) ++ "/" ++ field 4 (year dt).

(** [dt.strftime("%Y%m%d_%H%M%S")] *)
Definition strftime_YmdHMS (dt : datetime) : string :=
  field 4 (year dt) ++ field 2 (month dt) ++ field 2 (day dt) ++ "_" ++
  field 2 (hour dt) ++ field 2 (minute dt) ++ field 2 (second dt).

(** ** Exceptions, the world and the [Py] monad *)

Inductive exn : Type :=
  | RequestException (subclass : string) (msg : string) (response_text : option string)
  | TypeError (msg : string)
  | KeyError (msg : string)
  | OverflowError (msg : string)
  | OSError (msg : string)
  | AttributeError (msg : string)
  | UnicodeEncodeError (encoding : string) (reason : string)
  | OtherException (class_name : string) (msg : string).

(** A [requests.Response]: [json] is what [response.json()] does, the
    decoded body or the exception it raises. *)
Record response := {
  status_code : Z;
  reason : string;
  url : string;
  text : string;
  json : exn + pyobj
}.

Record request := {
  req_url : string;
  req_headers : list (string * string);
  req_params : dict
}.

(** The collaborators of a run: the clock read by [datetime.now()], the
    console, the HTTP transport behind [requests.get], and the file
    system: its files, the failure of [open(path, 'w')] if any, the
    fault of the device while [content] is written to [path] if any,
    with the part of the content that reached the file, and the part of
    a content that reached the file when a later part of it could not be
    encoded. *)
Record world := {
  clock : nat -> datetime;
  ticks : nat;
  stdout : list string;
  transport : request -> exn + response;
  files : gmap string string;
  open_error : string -> option exn;
  device_error : string -> string -> option (exn * string);
  written_before : string -> string
}.

Definition Py (A : Type) : Type := world -> (exn + A) * world.

Definition ret {A} (a : A) : Py A := fun w => (inr a, w).

Definition raise {A} (e : exn) : Py A := fun w => (inl e, w).

Definition bind {A B} (m : Py A) (k : A -> Py B) : Py B :=
  fun w =>
    match m w with
    | (inr a, w') => k a w'
    | (inl e, w') => (inl e, w')
    end.

(** [try: body except <class> as e: handler]; [handler e = None] when
    the [except] clause does not match [e]. *)
Definition try_except {A} (body : Py A) (handler : exn -> option (Py A)) : Py A :=
  fun w =>
    match body w with
    | (inr a, w') => (inr a, w')
    | (inl e, w') =>
        match handler e with
        | Some h => h w'
        | None => (inl e, w')
        end
    end.

#[export] Instance py_ret : MRet Py := @ret.
#[export] Instance py_bind : MBind Py := fun A B k m => bind m k.

Definition set_stdout (out : list string) (w : world) : world :=
  {| clock := clock w; ticks := ticks w; stdout := out;
     transport := transport w; files := files w; open_error := open_error w;
     device_error := device_error w; written_before := written_before w |}.

Definition set_ticks (n : nat) (w : world) : world :=
  {| clock := clock w; ticks := n; stdout := stdout w;
     transport := transport w; files := files w; open_error := open_error w;
     device_error := device_error w; written_before := written_before w |}.

Definition set_files (fs : gmap string string) (w : world) : world :=
  {| clock := clock w; ticks := ticks w; stdout := stdout w;
     transport := transport w; files := fs; open_error := open_error w;
     device_error := device_error w; written_before := written_before w |}.

(** [print(line)] *)
Definition print (line : string) : Py unit :=
  fun w => (inr tt, set_stdout (stdout w ++ [line])%list w).

(** [datetime.now()] *)
Definition datetime_now : Py datetime :=
  fun w => (inr (clock w (ticks w)), set_ticks (S (ticks w)) w).

(** [requests.get(url, headers=..., params=...)] *)
Definition requests_get (u : string) (hs : list (string * string)) (ps : dict)
    : Py response :=
  fun w =>
    match transport w {| req_url := u; req_headers := hs; req_params := ps |} with
    | inl e => (inl e, w)
    | inr r => (inr r, w)
    end.

(** A surrogate code point in the text: the bytes [ED A0..BF xx]. The
    [utf-8] codec refuses to encode it. *)
Fixpoint lone_surrogate (s : string) : bool :=
  match s with
  | EmptyString => false
  | String a s' =>
      match s' with
      | String b _ =>
          ((N_of_ascii a =? 237) && (160 <=? N_of_ascii b) && (N_of_ascii b <=? 191))%N
      | EmptyString => false
      end || lone_surrogate s'
  end.

(** The failure of writing [content] to the open file [path], if any,
    with the part of the content that reached the file: a fault of the
    device, or the [UnicodeEncodeError] of the [utf-8] codec on a
    surrogate. *)
Definition write_error (w : world) (path content : string) : option (exn * string) :=
  match device_error w path content with
  | Some failure => Some failure
  | None =>
      if lone_surrogate content
      then Some (UnicodeEncodeError "utf-8" "surrogates not allowed",
                 written_before w content)
      else None
  end.

(** [with open(path, 'w', encoding='utf-8') as f: f.write(content)] *)
Definition write_text_file (path content : string) : Py unit :=
  fun w =>
    match open_error w path with
    | Some e => (inl e, w)
    | None =>
        match write_error w path content with
        | Some (e, written) => (inl e, set_files (<[path := written]> (files w)) w)
        | None => (inr tt, set_files (<[path := content]> (files w)) w)
        end
    end.

Definition lift {A} (r : exn + A) : Py A :=
  match r with
  | inl e => raise e
  | inr a => ret a
  end.

(** [dt - timedelta(days=d)] *)
Definition sub_days (dt : datetime) (d : Z) : exn + datetime :=
  if MAX_DELTA_DAYS <? Z.abs d
  then inl (OverflowError "days; must have magnitude <= 999999999")
  else
    let n := ymd2ord (year dt) (month dt) (day dt) - d in
    if MAX_DELTA_DAYS <? Z.abs n
    then inl (OverflowError "days; must have magnitude <= 999999999")
    else if (0 <? n) && (n <=? MAXORDINAL)
    then
      match ord2ymd n with
      | (y, m, dd) =>
          inr {| year := y; month := m; day := dd;
                 hour := hour dt; minute := minute dt; second := second dt |}
      end
    else inl (OverflowError "date value out of range").

(** ** [json.dump(..., indent=2, ensure_ascii=False)] *)

Definition nl : string := String "010"%char EmptyString.

Module Json.

(** One character of [py_encode_basestring]: the [ESCAPE] pattern and
    [ESCAPE_DCT] of [json.encoder]. *)
Definition escape_char (c : ascii) : string :=
  let n := N_of_ascii c in
  if Ascii.eqb c dquote then String backslash (String dquote "")
  else if Ascii.eqb c backslash then String backslash (String backslash "")
  else if (n =? 8)%N then String backslash "b"
  else if (n =? 12)%N then String backslash "f"
  else if (n =? 10)%N then String backslash "n"
  else if (n =? 13)%N then String backslash "r"
  else if (n =? 9)%N then String backslash "t"
  else if (n <? 32)%N
       then String backslash
              (String "u" (String "0" (String "0"
                 (String (hex_digit (n / 16)) (String (hex_digit (n mod 16)) "")))))
  else String c "".

Fixpoint escape (s : string) : string :=
  match s with
  | EmptyString => EmptyString
  | String c s' => escape_char c ++ escape s'
  end.

Definition encode_basestring (s : string) : string :=
  String dquote (escape s ++ String dquote "").

Fixpoint spaces (n : nat) : string :=
  match n with
  | O => EmptyString
  | S n' => String " " (spaces n')
  end.

(** ['\n' + indent * level] with [indent = 2] spaces *)
Definition newline_indent (level : nat) : string :=
  nl ++ spaces (2 * level).

(** [_iterencode] at [_current_indent_level = level], its chunks
    concatenated. *)
Fixpoint encode (level : nat) (o : pyobj) : string :=
  match o with
  | PyNone => "null"
  | PyBool true => "true"
  | PyBool false => "false"
  | PyInt z => int_repr z
  | PyStr s => encode_basestring s
  | PyList items =>
      match items with
      | [] => "[]"
      | _ :: _ =>
          "[" ++ newline_indent (S level) ++
          str_join ("," ++ newline_indent (S level))
                   (List.map (encode (S level)) items) ++
          newline_indent level ++ "]"
      end
  | PyDict entries =>
      match entries with
      | [] => "{}"
      | _ :: _ =>
          "{" ++ newline_indent (S level) ++
          str_join ("," ++ newline_indent (S level))
                   (List.map (fun kv => match kv with
                                        | (k, x) =>
                                            encode_basestring k ++ ": " ++
                                            encode (S level) x
                                        end) entries) ++
          newline_indent level ++ "}"
      end
  end.

Definition dumps (o : pyobj) : string := encode 0 o.

(** *** [json.load]: the decoder of [json.decoder] and [json.scanner]

    A number with a fraction or an exponent, [NaN] and [Infinity] decode
    to a float; floats are not part of [pyobj], and the decoder stops on
    them with [FloatLiteral]. *)

Inductive decode_error : Type :=
  | JSONDecodeError (msg : string)
  | RecursionError
  | FloatLiteral.

Definition is_ws (c : ascii) : bool :=
  let n := N_of_ascii c in
  ((n =? 32) || (n =? 9) || (n =? 10) || (n =? 13))%N.

(** [WHITESPACE.match(s, idx).end()] *)
Fixpoint skip_ws (s : string) : string :=
  match s with
  | EmptyString => EmptyString
  | String c s' => if is_ws c then skip_ws s' else s
  end.

Definition is_digit (c : ascii) : bool :=
  let n := N_of_ascii c in ((48 <=? n) && (n <=? 57))%N.

Definition hex_value (c : ascii) : option N :=
  let n := N_of_ascii c in
  if ((48 <=? n) && (n <=? 57))%N then Some (n - 48)%N
  else if ((65 <=? n) && (n <=? 70))%N then Some (n - 55)%N
  else if ((97 <=? n) && (n <=? 102))%N then Some (n - 87)%N
  else None.

(** [_decode_uXXXX]: four hexadecimal digits and the text after them. *)
Definition decode_uXXXX (s : string) : option (N * string) :=
  match s with
  | String a (String b (String c (String d rest))) =>
      match hex_value a, hex_value b, hex_value c, hex_value d with
      | Some x, Some y, Some z, Some t =>
          Some ((((x * 16 + y) * 16 + z) * 16 + t)%N, rest)
      | _, _, _, _ => None
      end
  | _ => None
  end.

(** [chr(uni)], as the UTF-8 bytes of the character. *)
Definition utf8_encode (cp : N) : string :=
  let byte (n : N) := ascii_of_N n in
  if (cp <? 128)%N then String (byte cp) ""
  else if (cp <? 2048)%N
  then String (byte (192 + cp / 64)%N) (String (byte (128 + cp mod 64)%N) "")
  else if (cp <? 65536)%N
  then String (byte (224 + cp / 4096)%N)
         (String (byte (128 + (cp / 64) mod 64)%N)
            (String (byte (128 + cp mod 64)%N) ""))
  else String (byte (240 + cp / 262144)%N)
         (String (byte (128 + (cp / 4096) mod 64)%N)
            (String (byte (128 + (cp / 64) mod 64)%N)
               (String (byte (128 + cp mod 64)%N) ""))).

(** The [BACKSLASH] table *)
Definition unescape (esc : ascii) : option ascii :=
  let n := N_of_ascii esc in
  if Ascii.eqb esc dquote then Some dquote
  else if Ascii.eqb esc backslash then Some backslash
  else if Ascii.eqb esc "/" then Some "/"%char
  else if Ascii.eqb esc "b" then Some (ascii_of_N 8)
  else if Ascii.eqb esc "f" then Some (ascii_of_N 12)
  else if Ascii.eqb esc "n" then Some (ascii_of_N 10)
  else if Ascii.eqb esc "r" then Some (ascii_of_N 13)
  else if Ascii.eqb esc "t" then Some (ascii_of_N 9)
  else None.

(** The second half of a surrogate pair after a high surrogate [uni],
    when the text goes on with an escaped low surrogate. *)
Definition low_surrogate (uni : N) (s : string)
    : decode_error + (N * string) :=
  if ((55296 <=? uni) && (uni <=? 56319))%N
  then
    match s with
    | String b (String u s') =>
        if Ascii.eqb b backslash && Ascii.eqb u "u"
        then
          match decode_uXXXX s' with
          | None => inl (JSONDecodeError "Invalid \uXXXX escape")
          | Some (uni2, s'') =>
              if ((56320 <=? uni2) && (uni2 <=? 57343))%N
              then inr ((65536 + N.lor (N.shiftl (uni - 55296) 10) (uni2 - 56320))%N, s'')
              else inr (uni, s)
          end
        else inr (uni, s)
    | _ => inr (uni, s)
    end
  else inr (uni, s).

(** [py_scanstring(s, end, strict=True)], from the character after the
    opening quote: the decoded text and what follows the closing quote. *)
Fixpoint scanstring_loop (fuel : nat) (s : string)
    : decode_error + (string * string) :=
  match fuel with
  | O => inl (JSONDecodeError "Unterminated string starting at")
  | S fuel' =>
      match s with
      | EmptyString => inl (JSONDecodeError "Unterminated string starting at")
      | String c rest =>
          if Ascii.eqb c dquote then inr (EmptyString, rest)
          else if Ascii.eqb c backslash then
            match rest with
            | EmptyString => inl (JSONDecodeError "Unterminated string starting at")
            | String esc rest' =>
                if Ascii.eqb esc "u" then
                  match decode_uXXXX rest' with
                  | None => inl (JSONDecodeError "Invalid \uXXXX escape")
                  | Some (uni, rest2) =>
                      match low_surrogate uni rest2 with
                      | inl e => inl e
                      | inr (cp, rest3) =>
                          match scanstring_loop fuel' rest3 with
                          | inl e => inl e
                          | inr (str, r) => inr (utf8_encode cp ++ str, r)
                          end
                      end
                  end
                else
                  match unescape esc with
                  | None => inl (JSONDecodeError "Invalid \escape")
                  | Some ch =>
                      match scanstring_loop fuel' rest' with
                      | inl e => inl e
                      | inr (str, r) => inr (String ch str, r)
                      end
                  end
            end
          else if (N_of_ascii c <? 32)%N
          then inl (JSONDecodeError "Invalid control character at")
          else
            match scanstring_loop fuel' rest with
            | inl e => inl e
            | inr (str, r) => inr (String c str, r)
            end
      end
  end.

Definition scanstring (s : string) : decode_error + (string * string) :=
  scanstring_loop (String.length s) s.

(** The longest run of digits at the head of [s], and the rest. *)
Fixpoint span_digits (s : string) : string * string :=
  match s with
  | EmptyString => (EmptyString, EmptyString)
  | String c s' =>
      if is_digit c
      then match span_digits s' with (ds, rest) => (String c ds, rest) end
      else (EmptyString, s)
  end.

(** The groups of [NUMBER_RE]: an optional minus sign and then [0] or a
    non-zero digit followed by digits; a fraction, which is a dot and at
    least one digit; an exponent, which is [e] or [E], an optional sign
    and at least one digit. *)
Definition match_unsigned (s : string) : option (string * string) :=
  match s with
  | EmptyString => None
  | String c s' =>
      if Ascii.eqb c "0" then Some (String c EmptyString, s')
      else if is_digit c
      then match span_digits s' with (ds, rest) => Some (String c ds, rest) end
      else None
  end.

Definition match_integer (s : string) : option (string * string) :=
  match s with
  | EmptyString => None
  | String c s' =>
      if Ascii.eqb c "-"
      then match match_unsigned s' with
           | Some (ds, rest) => Some (String c ds, rest)
           | None => None
           end
      else match_unsigned s
  end.

Definition match_frac (s : string) : option string :=
  match s with
  | String c s' =>
      if Ascii.eqb c "."
      then match span_digits s' with
           | (EmptyString, _) => None
           | (String _ _, rest) => Some rest
           end
      else None
  | EmptyString => None
  end.

Definition match_exp (s : string) : option string :=
  match s with
  | String c s' =>
      if Ascii.eqb c "e" || Ascii.eqb c "E"
      then
        let s'' :=
          match s' with
          | String sign t => if Ascii.eqb sign "-" || Ascii.eqb sign "+" then t else s'
          | EmptyString => s'
          end in
        match span_digits s'' with
        | (EmptyString, _) => None
        | (String _ _, rest) => Some rest
        end
      else None
  | EmptyString => None
  end.

(** [int(text)] on the text of an integer group *)
Definition int_of_text (text : string) : Z :=
  match NilEmpty.int_of_string text with
  | Some d => Z.of_int d
  | None => 0
  end.

(** [d[k] = v] on a [dict] in insertion order *)
Fixpoint dict_set (d : dict) (k : string) (v : pyobj) : dict :=
  match d with
  | [] => [(k, v)]
  | (k', v') :: d' =>
      if String.eqb k' k then (k', v) :: d' else (k', v') :: dict_set d' k v
  end.

(** [dict(pairs)] *)
Definition dict_of_pairs (pairs : list (string * pyobj)) : dict :=
  fold_left (fun d kv => dict_set d (fst kv) (snd kv)) pairs [].

Definition scan_number (s : string) : decode_error + (pyobj * string) :=
  match match_integer s with
  | Some (text, rest) =>
      match match_frac rest, match_exp rest with
      | None, None => inr (PyInt (int_of_text text), rest)
      | _, _ => inl FloatLiteral
      end
  | None =>
      if str_startswith s "NaN" || str_startswith s "Infinity" ||
         str_startswith s "-Infinity"
      then inl FloatLiteral
      else inl (JSONDecodeError "Expecting value")
  end.

(** [scan_once], [JSONArray] and [JSONObject]; [fuel] bounds the depth
    of the calls. *)
Fixpoint scan_once (fuel : nat) (s : string) {struct fuel}
    : decode_error + (pyobj * string) :=
  match fuel with
  | O => inl RecursionError
  | S fuel' =>
      match s with
      | EmptyString => inl (JSONDecodeError "Expecting value")
      | String c rest =>
          if Ascii.eqb c dquote then
            match scanstring rest with
            | inl e => inl e
            | inr (str, r) => inr (PyStr str, r)
            end
          else if Ascii.eqb c "{" then
            match skip_ws rest with
            | EmptyString =>
                inl (JSONDecodeError "Expecting property name enclosed in double quotes")
            | String c1 r1 =>
                if Ascii.eqb c1 "}" then inr (PyDict [], r1)
                else if Ascii.eqb c1 dquote then
                  match parse_pairs fuel' r1 with
                  | inl e => inl e
                  | inr (pairs, r) => inr (PyDict (dict_of_pairs pairs), r)
                  end
                else inl (JSONDecodeError
                            "Expecting property name enclosed in double quotes")
            end
          else if Ascii.eqb c "[" then
            match skip_ws rest with
            | EmptyString => inl (JSONDecodeError "Expecting value")
            | String c1 r1 =>
                if Ascii.eqb c1 "]" then inr (PyList [], r1)
                else
                  match parse_items fuel' (String c1 r1) with
                  | inl e => inl e
                  | inr (items, r) => inr (PyList items, r)
                  end
            end
          else if str_startswith s "null" then inr (PyNone, string_drop 4 s)
          else if str_startswith s "true" then inr (PyBool true, string_drop 4 s)
          else if str_startswith s "false" then inr (PyBool false, string_drop 5 s)
          else scan_number s
      end
  end
with parse_items (fuel : nat) (s : string) {struct fuel}
    : decode_error + (list pyobj * string) :=
  match fuel with
  | O => inl RecursionError
  | S fuel' =>
      match scan_once fuel' s with
      | inl e => inl e
      | inr (value, s1) =>
          match skip_ws s1 with
          | EmptyString => inl (JSONDecodeError "Expecting ',' delimiter")
          | String c r =>
              if Ascii.eqb c "]" then inr ([value], r)
              else if Ascii.eqb c "," then
                match parse_items fuel' (skip_ws r) with
                | inl e => inl e
                | inr (values, r') => inr (value :: values, r')
                end
              else inl (JSONDecodeError "Expecting ',' delimiter")
          end
      end
  end
with parse_pairs (fuel : nat) (s : string) {struct fuel}
    : decode_error + (list (string * pyobj) * string) :=
  match fuel with
  | O => inl RecursionError
  | S fuel' =>
      match scanstring s with
      | inl e => inl e
      | inr (key, s1) =>
          match skip_ws s1 with
          | EmptyString => inl (JSONDecodeError "Expecting ':' delimiter")
          | String c s2 =>
              if Ascii.eqb c ":" then
                match scan_once fuel' (skip_ws s2) with
                | inl e => inl e
                | inr (value, s3) =>
                    match skip_ws s3 with
                    | EmptyString => inl (JSONDecodeError "Expecting ',' delimiter")
                    | String c' r =>
                        if Ascii.eqb c' "}" then inr ([(key, value)], r)
                        else if Ascii.eqb c' "," then
                          match skip_ws r with
                          | EmptyString =>
                              inl (JSONDecodeError
                                     "Expecting property name enclosed in double quotes")
                          | String q r' =>
                              if Ascii.eqb q dquote then
                                match parse_pairs fuel' r' with
                                | inl e => inl e
                                | inr (pairs, r'') => inr ((key, value) :: pairs, r'')
                                end
                              else inl (JSONDecodeError
                                          "Expecting property name enclosed in double quotes")
                          end
                        else inl (JSONDecodeError "Expecting ',' delimiter")
                    end
                end
              else inl (JSONDecodeError "Expecting ':' delimiter")
          end
      end
  end.

(** The UTF-8 byte order mark, ['﻿'] *)
Definition BOM : string :=
  String (ascii_of_N 239) (String (ascii_of_N 187) (String (ascii_of_N 191) "")).

(** [json.loads(s)] *)
Definition loads (s : string) : decode_error + pyobj :=
  if str_startswith s BOM
  then inl (JSONDecodeError "Unexpected UTF-8 BOM (decode using utf-8-sig)")
  else
    match scan_once (S (String.length s)) (skip_ws s) with
    | inl e => inl e
    | inr (obj, rest) =>
        match skip_ws rest with
        | EmptyString => inr obj
        | String _ _ => inl (JSONDecodeError "Extra data")
        end
    end.

End Json.

(** ** Vocabulary of the JSON round trip *)

(** What may follow an encoded value in a document: the end of the text,
    a comma, or the newline of the next indentation. *)
Definition delimited (rest : string) : bool :=
  match rest with
  | EmptyString => true
  | String c _ => Ascii.eqb c "," || Ascii.eqb c "010"
  end.

Definition number_start (c : ascii) : bool :=
  Json.is_digit c || Ascii.eqb c "-".

(** A character an encoded value can start with: no whitespace, no
    closing bracket, not the first byte of a byte order mark. *)
Definition value_start (c : ascii) : bool :=
  negb (Json.is_ws c) && negb (Ascii.eqb c "]") &&
  negb (Ascii.eqb c (ascii_of_N 239)).

Fixpoint unique_keys (keys : list string) : bool :=
  match keys with
  | [] => true
  | k :: ks => negb (existsb (String.eqb k) ks) && unique_keys ks
  end.

(** The invariant of a Python [dict], at every depth: no key occurs
    twice. *)
Fixpoint well_formed (v : pyobj) : bool :=
  match v with
  | PyList items => forallb well_formed items
  | PyDict entries =>
      unique_keys (List.map fst entries) &&
      forallb (fun kv => match kv with (_, x) => well_formed x end) entries
  | _ => true
  end.

(** The items of an array and the entries of an object as the encoder
    lays them out at [level]. *)
Definition items_text (level : nat) (items : list pyobj) : string :=
  str_join ("," ++ Json.newline_indent level) (List.map (Json.encode level) items).

Definition entry_text (level : nat) (kv : string * pyobj) : string :=
  match kv with
  | (k, x) => Json.encode_basestring k ++ ": " ++ Json.encode level x
  end.

Definition entries_text (level : nat) (entries : dict) : string :=
  str_join ("," ++ Json.newline_indent level) (List.map (entry_text level) entries).

(** An entry without the opening quote of its key, where [parse_pairs]
    starts, and the text after an entry. *)
Definition entry_tail (level : nat) (kv : string * pyobj) : string :=
  match kv with
  | (k, x) => Json.escape k ++ String dquote (": " ++ Json.encode level x)
  end.

Definition after_entries (level : nat) (entries : dict) (rest : string) : string :=
  match entries with
  | [] => Json.newline_indent level ++ "}" ++ rest
  | _ :: _ =>
      ("," ++ Json.newline_indent (S level)) ++
      entries_text (S level) entries ++ Json.newline_indent level ++ "}" ++ rest
  end.

(** [scan_once] reads [v] back from its encoding, at any level, before
    any delimiter, with fuel for the length of the encoding. *)
Definition decodes (v : pyobj) : Prop :=
  forall (level fuel : nat) (rest : string),
    well_formed v = true ->
    (String.length (Json.encode level v) <= fuel)%nat ->
    delimited rest = true ->
    Json.scan_once fuel (Json.encode level v ++ rest) = inr (v, rest).

(** ** Dynamic operations on decoded JSON *)

Definition py_type_name (o : pyobj) : string :=
  match o with
  | PyNone => "NoneType"
  | PyBool _ => "bool"
  | PyInt _ => "int"
  | PyStr _ => "str"
  | PyList _ => "list"
  | PyDict _ => "dict"
  end.

(** [item == key] for a [str] key *)
Definition py_eq_str (key : string) (item : pyobj) : bool :=
  match item with
  | PyStr s => String.eqb s key
  | _ => false
  end.

(** [key not in data] *)
Definition py_not_in (key : string) (data : pyobj) : Py bool :=
  match data with
  | PyDict entries => ret (negb (dict_has entries key))
  | PyList items => ret (negb (existsb (py_eq_str key) items))
  | PyStr s => ret (negb (str_contains key s))
  | _ => raise (TypeError ("argument of type '" ++ py_type_name data ++
                           "' is not iterable"))
  end.

(** [data[key]] for a [str] key *)
Definition py_getitem (data : pyobj) (key : string) : Py pyobj :=
  match data with
  | PyDict entries =>
      match dict_lookup entries key with
      | Some v => ret v
      | None => raise (KeyError key)
      end
  | PyList _ => raise (TypeError "list indices must be integers or slices, not str")
  | PyStr _ => raise (TypeError "string indices must be integers, not 'str'")
  | _ => raise (TypeError ("'" ++ py_type_name data ++ "' object is not subscriptable"))
  end.

(** A continuation byte of a UTF-8 character. *)
Definition is_continuation (c : ascii) : bool :=
  let n := N_of_ascii c in ((128 <=? n) && (n <? 192))%N.

(** [len(s)] on a [str]: its characters, not its bytes. *)
Fixpoint str_len (s : string) : Z :=
  match s with
  | EmptyString => 0
  | String c s' => (if is_continuation c then 0 else 1) + str_len s'
  end.

(** [list(s)] on a [str]: its characters. *)
Fixpoint str_chars (s : string) : list string :=
  match s with
  | EmptyString => []
  | String c s' =>
      match s' with
      | EmptyString => [String c EmptyString]
      | String d _ =>
          if is_continuation d
          then match str_chars s' with
               | x :: xs => String c x :: xs
               | [] => [String c EmptyString]
               end
          else String c EmptyString :: str_chars s'
      end
  end.

(** [len(o)] *)
Definition py_len_obj (o : pyobj) : exn + Z :=
  match o with
  | PyStr s => inr (str_len s)
  | PyList items => inr (Z.of_nat (List.length items))
  | PyDict entries => inr (Z.of_nat (List.length entries))
  | _ => inl (TypeError ("object of type '" ++ py_type_name o ++ "' has no len()"))
  end.

(** [for x in o]: the values of [x], in order. *)
Definition py_iter (o : pyobj) : exn + list pyobj :=
  match o with
  | PyStr s => inr (List.map PyStr (str_chars s))
  | PyList items => inr items
  | PyDict entries => inr (List.map (fun kv => PyStr (fst kv)) entries)
  | _ => inl (TypeError ("'" ++ py_type_name o ++ "' object is not iterable"))
  end.

(** The failure of [o.name] on an object without that attribute. *)
Definition no_attribute (o : pyobj) (name : string) : exn :=
  AttributeError ("'" ++ py_type_name o ++ "' object has no attribute '" ++ name ++ "'").

(** The [HTTPError] that [response.raise_for_status()] raises, if any. *)
Definition http_error (r : response) : option exn :=
  let c := status_code r in
  if (400 <=? c) && (c <? 500)
  then Some (RequestException "HTTPError"
               (int_repr c ++ " Client Error: " ++ reason r ++ " for url: " ++ url r)
               (Some (text r)))
  else if (500 <=? c) && (c <? 600)
  then Some (RequestException "HTTPError"
               (int_repr c ++ " Server Error: " ++ reason r ++ " for url: " ++ url r)
               (Some (text r)))
  else None.

(** [response.raise_for_status()] *)
Definition raise_for_status (r : response) : Py unit :=
  match http_error r with
  | Some e => raise e
  | None => ret tt
  end.

(** [response.json()] *)
Definition response_json (r : response) : Py pyobj :=
  lift (json r).

(** ** The scraper *)

Record SAMGovScraper := {
  api_key : string;
  base_url : string;
  headers : list (string * string)
}.

(** [SAMGovScraper.__init__] *)
Definition new_scraper (key : string) : SAMGovScraper :=
  {| api_key := key;
     base_url := "https://api.sam.gov/opportunities/v2/search";
     headers := [("Content-Type", "application/json")] |}.

(** [f'"{k}"'] *)
Definition quoted (k : string) : string :=
  String dquote (k ++ String dquote "").

(** [" OR ".join([f'"{k}"' for k in keywords])] *)
Definition keyword_query (keywords : list string) : string :=
  str_join " OR " (List.map quoted keywords).

Definition py_len {A} (l : list A) : Z := Z.of_nat (List.length l).

Section Scraper.
Context `{PyText}.

Definition search_params (self : SAMGovScraper) (keywords : list string)
    (limit : Z) (postedFrom postedTo : string) : dict :=
  [ ("api_key", PyStr (api_key self));
    ("limit", PyInt limit);
    ("postedFrom", PyStr postedFrom);
    ("postedTo", PyStr postedTo);
    ("keywords", PyStr (keyword_query keywords)) ].

(** The [except requests.exceptions.RequestException as e:] clause. *)
Definition on_request_exception (e : exn) : option (Py pyobj) :=
  match e with
  | RequestException _ msg response_text =>
      Some (print ("Error fetching opportunities: " ++ msg);;
            match response_text with
            | Some t => print ("Response text: " ++ t)
            | None => ret tt
            end;;
            ret (PyList []))
  | _ => None
  end.

Definition search_opportunities (self : SAMGovScraper) (keywords : list string)
    (days_back limit : Z) : Py pyobj :=
  end_date ← datetime_now;
  start_date ← lift (sub_days end_date days_back);
  let postedFrom := strftime_mdY start_date in
  let postedTo := strftime_mdY end_date in
  let params := search_params self keywords limit postedFrom postedTo in
  try_except
    (print ("Making request to " ++ base_url self);;
     print ("Parameters: " ++ py_repr (PyDict params));;
     response ← requests_get (base_url self) (headers self) params;
     (if negb (status_code response =? 200)
      then print ("Error response: " ++ text response)
      else ret tt);;
     raise_for_status response;;
     data ← response_json response;
     absent ← py_not_in "opportunitiesData" data;
     if (absent : bool)
     then print ("Unexpected response format: " ++ py_str data);;
          ret (PyList [])
     else py_getitem data "opportunitiesData")
    on_request_exception.

Definition save_opportunities (self : SAMGovScraper) (opportunities : list dict)
    (filename : string) : Py unit :=
  now ← datetime_now;
  let timestamp := strftime_YmdHMS now in
  let filename_with_timestamp := filename ++ "_" ++ timestamp ++ ".json" in
  write_text_file filename_with_timestamp
                  (Json.dumps (PyList (List.map PyDict opportunities)));;
  print ("Saved " ++ int_repr (py_len opportunities) ++ " opportunities to " ++
         filename_with_timestamp).

Fixpoint dashes (n : nat) : string :=
  match n with
  | O => EmptyString
  | S n' => String "-" (dashes n')
  end.

Definition print_opportunity (opp : dict) : Py unit :=
  print (nl ++ dashes 80);;
  print ("Title: " ++ py_str (dict_get opp "title" PyNone));;
  print ("Notice ID: " ++ py_str (dict_get opp "noticeId" PyNone));;
  print ("Posted Date: " ++ py_str (dict_get opp "postedDate" PyNone));;
  print ("Response Due Date: " ++ py_str (dict_get opp "responseDueDate" PyNone)).

(** [for x in xs: body x] *)
Fixpoint for_each {A} (xs : list A) (body : A -> Py unit) : Py unit :=
  match xs with
  | [] => ret tt
  | x :: xs' => body x;; for_each xs' body
  end.

Definition print_summary (self : SAMGovScraper) (opportunities : list dict)
    (title : string) : Py unit :=
  print (nl ++ title ++ " Summary:");;
  print ("Total count: " ++ int_repr (py_len opportunities));;
  for_each opportunities print_opportunity.

(** The three methods on whatever object [search_opportunities]
    returned: Python checks no annotation, so [main] runs them on the
    value stored under [opportunitiesData] as it is. On a list of
    dictionaries they are [save_opportunities], [filter_opportunities] and
    [print_summary] above. *)
Definition save_object (self : SAMGovScraper) (opportunities : pyobj)
    (filename : string) : Py unit :=
  now ← datetime_now;
  let timestamp := strftime_YmdHMS now in
  let filename_with_timestamp := filename ++ "_" ++ timestamp ++ ".json" in
  write_text_file filename_with_timestamp (Json.dumps opportunities);;
  count ← lift (py_len_obj opportunities);
  print ("Saved " ++ int_repr count ++ " opportunities to " ++
         filename_with_timestamp).

(** The loop of [filter_opportunities]: [opp.get] fails on the first
    item that is not a dictionary. *)
Fixpoint filter_items (must_include_keywords : list string) (items : list pyobj)
    (filtered : list dict) : exn + list dict :=
  match items with
  | [] => inr filtered
  | PyDict opp :: rest =>
      filter_items must_include_keywords rest
        (if all_keywords_present must_include_keywords (searchable_text opp)
         then (filtered ++ [opp])%list
         else filtered)
  | item :: _ => inl (no_attribute item "get")
  end.

Definition filter_object (opportunities : pyobj)
    (must_include_keywords : list string) : exn + list dict :=
  match py_iter opportunities with
  | inl e => inl e
  | inr items => filter_items must_include_keywords items []
  end.

Definition print_item (item : pyobj) : Py unit :=
  print (nl ++ dashes 80);;
  match item with
  | PyDict opp =>
      print ("Title: " ++ py_str (dict_get opp "title" PyNone));;
      print ("Notice ID: " ++ py_str (dict_get opp "noticeId" PyNone));;
      print ("Posted Date: " ++ py_str (dict_get opp "postedDate" PyNone));;
      print ("Response Due Date: " ++ py_str (dict_get opp "responseDueDate" PyNone))
  | _ => raise (no_attribute item "get")
  end.

Definition print_summary_object (self : SAMGovScraper) (opportunities : pyobj)
    (title : string) : Py unit :=
  print (nl ++ title ++ " Summary:");;
  count ← lift (py_len_obj opportunities);
  print ("Total count: " ++ int_repr count);;
  items ← lift (py_iter opportunities);
  for_each items print_item.

(** [main()]; the API key literal of the source is the parameter [key]. *)
Definition main (key : string) : Py unit :=
  let scraper := new_scraper key in
  let search_keywords := ["software"; "development"; "cloud"] in
  let must_include := ["python"; "aws"] in
  print "Searching for opportunities...";;
  opportunities ← search_opportunities scraper search_keywords 30 100;
  save_object scraper opportunities "all_opportunities";;
  filtered_opportunities ← lift (filter_object opportunities must_include);
  save_opportunities scraper filtered_opportunities "filtered_opportunities";;
  print_summary_object scraper opportunities "All Opportunities";;
  print_summary scraper filtered_opportunities "Filtered Opportunities".

End Scraper.

(** ** Vocabulary of the statements *)

(** The request [search_opportunities] sends when [datetime.now()] reads
    [now] and the posted-date window starts at [start]. *)
Definition search_request (self : SAMGovScraper) (keywords : list string)
    (limit : Z) (start now : datetime) : request :=
  {| req_url := base_url self;
     req_headers := headers self;
     req_params :=
       search_params self keywords limit (strftime_mdY start) (strftime_mdY now) |}.

(** An answer of the transport that is a transport failure with message
    [msg]: [requests.get] raises a [RequestException] (connection error,
    timeout, ...), the status makes [raise_for_status] raise, or the body
    makes [response.json()] raise one. *)
Inductive transport_failure : exn + response -> string -> Prop :=
  | get_raised cls msg rt :
      transport_failure (inl (RequestException cls msg rt)) msg
  | status_raised r cls msg rt :
      http_error r = Some (RequestException cls msg rt) ->
      transport_failure (inr r) msg
  | json_raised r cls msg rt :
      http_error r = None ->
      json r = inl (RequestException cls msg rt) ->
      transport_failure (inr r) msg.

Definition is_request_exception (e : exn) : bool :=
  match e with
  | RequestException _ _ _ => true
  | _ => false
  end.

(** The name [save_opportunities] gives the file when the clock reads
    [now]: [{prefix}_{YYYYMMDD_HHMMSS}.json]. *)
Definition saved_filename (prefix : string) (now : datetime) : string :=
  prefix ++ "_" ++
  field 4 (year now) ++ field 2 (month now) ++ field 2 (day now) ++ "_" ++
  field 2 (hour now) ++ field 2 (minute now) ++ field 2 (second now) ++ ".json".


(** ** Sample worlds and opportunities *)

Definition null_description : dict :=
  [("title", PyStr "Road repair"); ("description", PyNone)].

Definition no_description : dict :=
  [("title", PyStr "Road repair")].

Definition at_noon : datetime :=
  {| year := 2026; month := 11; day := 3; hour := 12; minute := 0; second := 5 |}.

Definition quiet_world (t : request -> exn + response) : world :=
  {| clock := fun _ => at_noon; ticks := 0; stdout := [];
     transport := t; files := ∅;
     open_error := fun _ => None; device_error := fun _ _ => None;
     written_before := fun _ => EmptyString |}.

Definition read_only_world (t : request -> exn + response) : world :=
  {| clock := fun _ => at_noon; ticks := 0; stdout := [];
     transport := t; files := ∅;
     open_error := fun _ => Some (OSError "Read-only file system");
     device_error := fun _ _ => None; written_before := fun _ => EmptyString |}.

Definition two_opportunities : list dict :=
  [ [("title", PyStr "Python AWS Cloud Migration")];
    [("title", PyStr "Java Mainframe Support")] ].

Definition ok_response (data : pyobj) : response :=
  {| status_code := 200; reason := "OK";
     url := "https://api.sam.gov/opportunities/v2/search";
     text := Json.dumps data; json := inr data |}.

(** A transport that answers every request with status 200 and a body
    that holds, under [opportunitiesData], the parameters it was sent. *)
Definition echo_parameters (req : request) : exn + response :=
  inr (ok_response (PyDict [("opportunitiesData", PyDict (req_params req))])).

Definition window_start : datetime :=
  {| year := 2026; month := 10; day := 4; hour := 12; minute := 0; second := 5 |}.

Definition connection_error : exn :=
  RequestException "ConnectionError" "Connection refused" None.

(** [w] with another transport. *)
Definition set_transport (t : request -> exn + response) (w : world) : world :=
  {| clock := clock w; ticks := ticks w; stdout := stdout w;
     transport := t; files := files w; open_error := open_error w;
     device_error := device_error w; written_before := written_before w |}.

(** ** What [save_opportunities] and [print_summary] print *)

(** The confirmation line of [save_opportunities]. *)
Definition saved_line (opportunities : list dict) (name : string) : string :=
  "Saved " ++ int_repr (py_len opportunities) ++ " opportunities to " ++ name.

Section SummaryLines.
Context `{PyText}.

(** The five lines [print_summary] prints for one opportunity, and all
    the lines of a summary. *)
Definition opportunity_lines (opp : dict) : list string :=
  [ nl ++ dashes 80;
    "Title: " ++ py_str (dict_get opp "title" PyNone);
    "Notice ID: " ++ py_str (dict_get opp "noticeId" PyNone);
    "Posted Date: " ++ py_str (dict_get opp "postedDate" PyNone);
    "Response Due Date: " ++ py_str (dict_get opp "responseDueDate" PyNone) ].

Definition summary_lines (opportunities : list dict) (title : string) : list string :=
  [ nl ++ title ++ " Summary:";
    "Total count: " ++ int_repr (py_len opportunities) ] ++
  List.concat (List.map opportunity_lines opportunities).

End SummaryLines.

(** ** Further sample worlds and opportunities *)


Definition road_repair_noticed : dict :=
  [("noticeId", PyStr "N-1"); ("title", PyStr "Road repair")].

Definition refusing_world : world :=
  quiet_world (fun _ => inl connection_error).

Definition found_world : world :=
  quiet_world (fun _ => inr (ok_response
    (PyDict [("opportunitiesData", PyList (List.map PyDict two_opportunities))]))).

(** * Properties *)

(** [write_error] looks at the device and at the content only. *)
Lemma write_error_set_stdout (out : list string) (w : world) :
  write_error (set_stdout out w) = write_error w.
Proof. reflexivity. Qed.

Lemma write_error_set_ticks (n : nat) (w : world) :
  write_error (set_ticks n w) = write_error w.
Proof. reflexivity. Qed.

Lemma write_error_set_files (fs : gmap string string) (w : world) :
  write_error (set_files fs w) = write_error w.
Proof. reflexivity. Qed.

Lemma write_error_set_transport (t : request -> exn + response) (w : world) :
  write_error (set_transport t w) = write_error w.
Proof. reflexivity. Qed.

Ltac write_error_frame :=
  repeat progress
    rewrite ?write_error_set_stdout, ?write_error_set_ticks,
      ?write_error_set_files, ?write_error_set_transport in *.

(** ** Strings *)

Lemma string_app_cons (c : ascii) (a b : string) :
  String c a ++ b = String c (a ++ b).
Proof. reflexivity. Qed.

Lemma string_app_nil_l (s : string) : "" ++ s = s.
Proof. reflexivity. Qed.

Lemma string_app_nil_r (s : string) : s ++ "" = s.
Proof.
  induction s as [|c s IH]; [reflexivity|].
  by rewrite string_app_cons, IH.
Qed.

Lemma string_app_assoc (a b c : string) : (a ++ b) ++ c = a ++ (b ++ c).
Proof.
  induction a as [|x a IH]; [reflexivity|].
  by rewrite !string_app_cons, IH.
Qed.

Lemma string_map_app (f : ascii -> ascii) (a b : string) :
  string_map f (a ++ b) = string_map f a ++ string_map f b.
Proof.
  induction a as [|x a IH]; [reflexivity|].
  rewrite string_app_cons. cbn [string_map]. by rewrite string_app_cons, IH.
Qed.

Lemma str_startswith_iff (s p : string) :
  str_startswith s p = true <-> exists post, s = p ++ post.
Proof.
  revert s. induction p as [|a p IH]; intros s.
  - cbn. split; [intros _; exists s; reflexivity | reflexivity].
  - destruct s as [|b s]; cbn [str_startswith].
    + split; [discriminate | intros [post Hpost]; discriminate].
    + rewrite andb_true_iff, IH. split.
      * intros [Hab [post ->]]. apply Ascii.eqb_eq in Hab as ->. by exists post.
      * intros [post Hpost]. rewrite string_app_cons in Hpost.
        injection Hpost as -> ->.
        split; [apply Ascii.eqb_refl | by exists post].
Qed.

Lemma str_contains_iff (needle hay : string) :
  str_contains needle hay = true <-> is_substring needle hay.
Proof.
  unfold is_substring. induction hay as [|c hay IH]; cbn [str_contains].
  - rewrite orb_false_r, str_startswith_iff. split.
    + intros [post Hpost]. exists "", post. by rewrite string_app_nil_l.
    + intros [[|x pre] [post Hpost]]; [by exists post | discriminate].
  - rewrite orb_true_iff, IH, str_startswith_iff. split.
    + intros [[post Hpost] | (pre & post & ->)].
      * exists "", post. by rewrite string_app_nil_l.
      * by exists (String c pre), post.
    + intros [[|x pre] [post Hpost]].
      * left. by exists post.
      * right. rewrite string_app_cons in Hpost.
        injection Hpost as -> ->. by exists pre, post.
Qed.

(** ** [filter_opportunities] as a filter *)

Section FilterProperties.
Context `{PyText}.

Lemma filter_loop (M : list string) (O acc : list dict) :
  fold_left
    (fun (filtered : list dict) (opp : dict) =>
       if all_keywords_present M (searchable_text opp)
       then (filtered ++ [opp])%list
       else filtered)
    O acc
  = (acc ++ List.filter (fun opp => all_keywords_present M (searchable_text opp)) O)%list.
Proof.
  revert acc. induction O as [|opp O IH]; intros acc; cbn.
  - by rewrite app_nil_r.
  - rewrite IH. destruct (all_keywords_present M (searchable_text opp)); [|done].
    by rewrite <- app_assoc.
Qed.

Lemma filter_opportunities_filter (O : list dict) (M : list string) :
  filter_opportunities O M
  = List.filter (fun opp => all_keywords_present M (searchable_text opp)) O.
Proof. unfold filter_opportunities. by rewrite filter_loop. Qed.

Lemma searchable_text_fields (opp : dict) :
  searchable_text opp
  = str_lower (field_text opp "title" ++ " " ++ field_text opp "description" ++ " " ++
               field_text opp "type" ++ " " ++ field_text opp "classificationCode").
Proof.
  unfold searchable_text, field_text, dict_get. cbn [str_join].
  by repeat destruct (dict_lookup opp _).
Qed.

Lemma all_keywords_present_iff (M : list string) (t : string) :
  all_keywords_present M t = true <->
  forall keyword, In keyword M -> is_substring (str_lower keyword) t.
Proof.
  unfold all_keywords_present. rewrite forallb_forall.
  split; intros Hall k Hk; apply str_contains_iff; auto.
Qed.

Lemma filter_opportunities_app (O1 O2 : list dict) (M : list string) :
  filter_opportunities (O1 ++ O2) M
  = (filter_opportunities O1 M ++ filter_opportunities O2 M)%list.
Proof. rewrite !filter_opportunities_filter. apply List.filter_app. Qed.

Lemma filter_opportunities_cons (opp : dict) (O : list dict) (M : list string) :
  filter_opportunities (opp :: O) M
  = if all_keywords_present M (searchable_text opp)
    then opp :: filter_opportunities O M
    else filter_opportunities O M.
Proof. by rewrite !filter_opportunities_filter. Qed.

Lemma filter_opportunities_sublist (O : list dict) (M : list string) :
  filter_opportunities O M `sublist_of` O.
Proof.
  induction O as [|opp O IH]; [by rewrite filter_opportunities_filter|].
  rewrite filter_opportunities_cons.
  destruct (all_keywords_present M (searchable_text opp));
    [by apply sublist_skip | by apply sublist_cons].
Qed.

End FilterProperties.

Lemma filter_idempotent {A} (f : A -> bool) (l : list A) :
  List.filter f (List.filter f l) = List.filter f l.
Proof.
  induction l as [|x l IH]; [done|]. cbn.
  destruct (f x) eqn:Hx; [|done]. cbn. by rewrite Hx, IH.
Qed.

Lemma filter_andb_sublist {A} (f g : A -> bool) (l : list A) :
  List.filter (fun x => f x && g x) l `sublist_of` List.filter f l.
Proof.
  induction l as [|x l IH]; [done|]. cbn.
  destruct (f x), (g x); cbn; auto using sublist_skip, sublist_cons.
Qed.

Lemma ascii_lower_title_prefix (rest : string) :
  string_map ascii_lower ("AWS Cloud Project" ++ rest)
  = "aws cloud project" ++ string_map ascii_lower rest.
Proof. by rewrite string_map_app. Qed.

(** C1: [filter_opportunities O M] keeps an opportunity exactly when every
    keyword of [M], lowercased, occurs as a substring of the lowercased,
    space-joined string forms of its [title], [description], [type] and
    [classificationCode] fields (for every interpreter); and under the
    ASCII rules every opportunity titled "AWS Cloud Project" survives
    [M = ["aws"]]. *)
Theorem filter_opportunities_keeps_iff :
  (forall (T : PyText) (O : list dict) (M : list string) (opp : dict),
     In opp (filter_opportunities O M) <->
     In opp O /\
     forall keyword, In keyword M ->
       is_substring (str_lower keyword)
         (str_lower (field_text opp "title" ++ " " ++
                     field_text opp "description" ++ " " ++
                     field_text opp "type" ++ " " ++
                     field_text opp "classificationCode")))
  /\
  (forall (O : list dict) (opp : dict),
     dict_lookup opp "title" = Some (PyStr "AWS Cloud Project") ->
     In opp O ->
     In opp (@filter_opportunities ascii_text O ["aws"])).
Proof.
  assert (Hgen : forall (T : PyText) (O : list dict) (M : list string) (opp : dict),
     In opp (filter_opportunities O M) <->
     In opp O /\
     forall keyword, In keyword M ->
       is_substring (str_lower keyword)
         (str_lower (field_text opp "title" ++ " " ++
                     field_text opp "description" ++ " " ++
                     field_text opp "type" ++ " " ++
                     field_text opp "classificationCode"))).
  { intros T O M opp.
    rewrite filter_opportunities_filter, filter_In, all_keywords_present_iff.
    by rewrite searchable_text_fields. }
  split; [exact Hgen|].
  intros O opp Htitle Hin. apply Hgen. split; [done|].
  intros keyword [<- | []]. unfold field_text at 1. rewrite Htitle.
  cbn [py_str str_lower ascii_text].
  exists "", (" cloud project" ++
              string_map ascii_lower
                (" " ++ field_text opp "description" ++ " " ++
                 field_text opp "type" ++ " " ++
                 field_text opp "classificationCode")).
  rewrite ascii_lower_title_prefix. reflexivity.
Qed.

(** C2: the result is a subsequence of the input in the input's order,
    an empty keyword list returns the input unchanged, and every
    occurrence is decided on its own (the function distributes over
    concatenation and maps a one-element list to itself or to the empty
    list), so nothing is deduplicated or reordered. *)
Theorem filter_opportunities_subsequence :
  forall (T : PyText) (O : list dict) (M : list string),
    filter_opportunities O M `sublist_of` O /\
    filter_opportunities O [] = O /\
    (forall O1 O2 : list dict,
       filter_opportunities (O1 ++ O2) M
       = (filter_opportunities O1 M ++ filter_opportunities O2 M)%list) /\
    (forall opp : dict,
       filter_opportunities [opp] M = [opp] \/ filter_opportunities [opp] M = []).
Proof.
  intros T O M. split; [apply filter_opportunities_sublist|]. split; [|split].
  - rewrite filter_opportunities_filter. cbn.
    induction O as [|opp O IH]; [done|]. cbn. by rewrite IH.
  - intros O1 O2. apply filter_opportunities_app.
  - intros opp. rewrite filter_opportunities_cons.
    destruct (all_keywords_present M (searchable_text opp)); auto.
Qed.

(** C9: filtering twice with the same keywords is filtering once. *)
Theorem filter_opportunities_idempotent :
  forall (T : PyText) (O : list dict) (M : list string),
    filter_opportunities (filter_opportunities O M) M = filter_opportunities O M.
Proof.
  intros T O M. rewrite !filter_opportunities_filter. apply filter_idempotent.
Qed.

(** C10: more must-include keywords never add an opportunity: the result
    for [M1 ++ M2] is a subsequence of the result for [M1]. *)
Theorem filter_opportunities_antitone :
  forall (T : PyText) (O : list dict) (M1 M2 : list string),
    filter_opportunities O (M1 ++ M2) `sublist_of` filter_opportunities O M1.
Proof.
  intros T O M1 M2. rewrite !filter_opportunities_filter.
  unfold all_keywords_present.
  erewrite List.filter_ext; [apply filter_andb_sublist|].
  intros opp. cbn beta. apply forallb_app.
Qed.

(** ** [search_opportunities] *)

(** Unfolds the monad and the primitives of a run. *)
Ltac py_run :=
  unfold on_request_exception, raise_for_status, response_json, py_not_in,
    py_getitem, try_except, mbind, py_bind, bind, mret, py_ret, ret, raise,
    lift, print, requests_get;
  cbn beta iota.

Section SearchProperties.
Context `{PyText}.

Lemma search_opportunities_unfold (self : SAMGovScraper) (K : list string)
    (days limit : Z) (w : world) (start : datetime) :
  sub_days (clock w (ticks w)) days = inr start ->
  search_opportunities self K days limit w
  = try_except
      (print ("Making request to " ++ base_url self);;
       print ("Parameters: " ++
              py_repr (PyDict (req_params
                 (search_request self K limit start (clock w (ticks w))))));;
       response ← requests_get (base_url self) (headers self)
                    (req_params (search_request self K limit start (clock w (ticks w))));
       (if negb (status_code response =? 200)
        then print ("Error response: " ++ text response)
        else ret tt);;
       raise_for_status response;;
       data ← response_json response;
       absent ← py_not_in "opportunitiesData" data;
       if (absent : bool)
       then print ("Unexpected response format: " ++ py_str data);;
            ret (PyList [])
       else py_getitem data "opportunitiesData")
      on_request_exception
      (set_ticks (S (ticks w)) w).
Proof.
  intros Hstart. unfold search_opportunities.
  unfold mbind, py_bind, bind at 1, datetime_now. cbn beta iota.
  rewrite Hstart. reflexivity.
Qed.

Lemma sub_days_raises_overflow (dt : datetime) (d : Z) (e : exn) :
  sub_days dt d = inl e -> is_request_exception e = false.
Proof.
  unfold sub_days. repeat case_match; intros [= <-]; reflexivity.
Qed.

Lemma try_except_request_exception (body : Py pyobj) (w : world) (e : exn) :
  fst (try_except body on_request_exception w) = inl e ->
  is_request_exception e = false.
Proof.
  unfold try_except. destruct (body w) as [[e'|a] w']; cbn; [|discriminate].
  destruct e'; cbn; try (intros [= <-]; reflexivity).
  destruct response_text; cbn; discriminate.
Qed.

(** C5: what [search_opportunities] does with the decoded body of a
    status-200 response. A JSON object without the [opportunitiesData]
    key is printed as unexpected and gives the empty list; with the key,
    the value stored under it is returned as it is. An array or a string
    goes the same two ways, by what [in] means on it, except that the
    subscript then raises. The bodies [null], [true], [false] and
    integers have no such key either, but on them the test
    ["opportunitiesData" not in data] itself raises [TypeError], which
    the [except] clause does not catch: the call raises, and the payload
    is not printed. *)
Theorem search_opportunities_payload :
  forall (self : SAMGovScraper) (K : list string) (days limit : Z) (w : world)
         (start : datetime) (r : response) (data : pyobj),
    sub_days (clock w (ticks w)) days = inr start ->
    transport w (search_request self K limit start (clock w (ticks w))) = inr r ->
    status_code r = 200 ->
    json r = inr data ->
    let announced :=
      ["Making request to " ++ base_url self;
       "Parameters: " ++
         py_repr (PyDict (req_params
            (search_request self K limit start (clock w (ticks w)))))] in
    let warning := "Unexpected response format: " ++ py_str data in
    let run := search_opportunities self K days limit w in
    let empty_result :=
      fst run = inr (PyList []) /\
      stdout (snd run) = (stdout w ++ announced ++ [warning])%list in
    let raises (msg : string) :=
      fst run = inl (TypeError msg) /\
      stdout (snd run) = (stdout w ++ announced)%list in
    match data with
    | PyDict entries =>
        match dict_lookup entries "opportunitiesData" with
        | None => empty_result
        | Some v =>
            fst run = inr v /\
            stdout (snd run) = (stdout w ++ announced)%list
        end
    | PyList items =>
        if existsb (py_eq_str "opportunitiesData") items
        then raises "list indices must be integers or slices, not str"
        else empty_result
    | PyStr s =>
        if str_contains "opportunitiesData" s
        then raises "string indices must be integers, not 'str'"
        else empty_result
    | PyNone => raises "argument of type 'NoneType' is not iterable"
    | PyBool _ => raises "argument of type 'bool' is not iterable"
    | PyInt _ => raises "argument of type 'int' is not iterable"
    end.
Proof.
  intros self K days limit w start r data Hstart Hget Hstatus Hjson.
  cbn zeta. rewrite (search_opportunities_unfold _ _ _ _ _ _ Hstart).
  py_run. unfold search_request in *. cbn [req_params set_stdout set_ticks transport stdout] in *.
  rewrite Hget. unfold http_error. rewrite Hstatus, Hjson.
  destruct data as [ | b | z | s | items | entries]; cbn.
  - split; [done|]. by rewrite <- !app_assoc.
  - split; [done|]. by rewrite <- !app_assoc.
  - split; [done|]. by rewrite <- !app_assoc.
  - destruct (str_contains "opportunitiesData" s); cbn;
      (split; [done|]; by rewrite <- !app_assoc).
  - destruct (existsb (py_eq_str "opportunitiesData") items); cbn;
      (split; [done|]; by rewrite <- !app_assoc).
  - unfold dict_has. destruct (dict_lookup entries "opportunitiesData"); cbn;
      (split; [done|]; by rewrite <- !app_assoc).
Qed.

(** C4: whatever the transport does, no [RequestException] leaves
    [search_opportunities]; and when the transport fails (the request
    raises, the status is an HTTP error, or the body does not decode) the
    failure is printed and the call returns the empty list, leaving the
    files alone. *)
Theorem search_opportunities_catches_transport_failures :
  (forall (self : SAMGovScraper) (K : list string) (days limit : Z) (w : world)
          (e : exn),
     fst (search_opportunities self K days limit w) = inl e ->
     is_request_exception e = false)
  /\
  (forall (self : SAMGovScraper) (K : list string) (days limit : Z) (w : world)
          (start : datetime) (msg : string),
     sub_days (clock w (ticks w)) days = inr start ->
     transport_failure
       (transport w (search_request self K limit start (clock w (ticks w)))) msg ->
     let logged := "Error fetching opportunities: " ++ msg in
     let run := search_opportunities self K days limit w in
     fst run = inr (PyList []) /\
     In logged (stdout (snd run)) /\
     files (snd run) = files w).
Proof.
  split.
  - intros self K days limit w e.
    destruct (sub_days (clock w (ticks w)) days) as [e'|start] eqn:Hstart.
    + unfold search_opportunities, mbind, py_bind, bind at 1, datetime_now.
      cbn beta iota. rewrite Hstart. cbn. intros [= <-].
      by eapply sub_days_raises_overflow.
    + rewrite (search_opportunities_unfold _ _ _ _ _ _ Hstart).
      apply try_except_request_exception.
  - intros self K days limit w start msg Hstart Hfail. cbn zeta.
    rewrite (search_opportunities_unfold _ _ _ _ _ _ Hstart).
    py_run. unfold search_request in *.
    cbn [req_params set_stdout set_ticks transport stdout] in *.
    destruct Hfail as [cls m rt | r cls m rt Herr | r cls m rt Herr Hjson];
      try rewrite Herr; try rewrite Hjson;
      try destruct (negb (status_code r =? 200)); destruct rt; cbn;
      (split; [reflexivity|]); (split; [|reflexivity]);
      rewrite ?in_app_iff; cbn; tauto.
Qed.

End SearchProperties.

(** ** The JSON round trip *)

(** Reassociates concatenations to the right and pushes them under the
    leading characters. *)
Ltac string_norm :=
  repeat first
    [ rewrite string_app_assoc | rewrite string_app_cons | rewrite string_app_nil_l ].

Ltac string_norm_in H :=
  repeat first
    [ rewrite string_app_assoc in H | rewrite string_app_cons in H
    | rewrite string_app_nil_l in H ].

Lemma string_length_app (a b : string) :
  String.length (a ++ b) = (String.length a + String.length b)%nat.
Proof.
  induction a as [|c a IH]; [reflexivity|].
  rewrite string_app_cons. cbn [String.length]. by rewrite IH.
Qed.

Lemma skip_ws_start (c : ascii) (s : string) :
  Json.is_ws c = false -> Json.skip_ws (String c s) = String c s.
Proof. intros Hc. cbn. by rewrite Hc. Qed.

Lemma skip_ws_spaces (n : nat) (s : string) :
  Json.skip_ws (Json.spaces n ++ s) = Json.skip_ws s.
Proof.
  induction n as [|n IH]; [reflexivity|].
  cbn [Json.spaces]. rewrite string_app_cons. cbn. exact IH.
Qed.

Lemma skip_ws_newline_indent (level : nat) (s : string) :
  Json.skip_ws (Json.newline_indent level ++ s) = Json.skip_ws s.
Proof.
  unfold Json.newline_indent, nl. rewrite string_app_assoc, string_app_cons.
  cbn [Json.skip_ws]. change (Json.is_ws "010") with true. cbn iota.
  rewrite string_app_nil_l. apply skip_ws_spaces.
Qed.

(** One round of the string scanner undoes one escaped character. *)
Lemma scanstring_escape_char (c : ascii) (f : nat) (rest : string) :
  Json.scanstring_loop (S f) (Json.escape_char c ++ rest)
  = match Json.scanstring_loop f rest with
    | inl e => inl e
    | inr (str, r) => inr (String c str, r)
    end.
Proof.
  destruct c as [[] [] [] [] [] [] [] []]; reflexivity.
Qed.

Lemma escape_char_length (c : ascii) :
  (1 <= String.length (Json.escape_char c))%nat.
Proof. destruct c as [[] [] [] [] [] [] [] []]; vm_compute; lia. Qed.

Lemma escape_length (s : string) :
  (String.length s <= String.length (Json.escape s))%nat.
Proof.
  induction s as [|c s IH]; [done|]. cbn [Json.escape String.length].
  rewrite string_length_app. pose proof (escape_char_length c). lia.
Qed.

Lemma scanstring_loop_escape (s rest : string) (f : nat) :
  (String.length s < f)%nat ->
  Json.scanstring_loop f (Json.escape s ++ String dquote rest) = inr (s, rest).
Proof.
  revert f. induction s as [|c s IH]; intros f Hf.
  - destruct f as [|f]; [cbn in Hf; lia|]. reflexivity.
  - destruct f as [|f]; [cbn in Hf; lia|]. cbn [Json.escape].
    rewrite string_app_assoc, scanstring_escape_char, IH; [done|].
    cbn in Hf. lia.
Qed.

Lemma scanstring_escape (s rest : string) :
  Json.scanstring (Json.escape s ++ String dquote rest) = inr (s, rest).
Proof.
  unfold Json.scanstring. apply scanstring_loop_escape.
  rewrite string_length_app. cbn [String.length].
  pose proof (escape_length s). lia.
Qed.

Lemma delimited_cases (rest : string) :
  delimited rest = true ->
  rest = "" \/ exists c t, rest = String c t /\ (c = ","%char \/ c = "010"%char).
Proof.
  destruct rest as [|c t]; [by left|]. cbn. rewrite orb_true_iff, !Ascii.eqb_eq.
  intros Hc. right. by exists c, t.
Qed.

Lemma span_digits_delimited (rest : string) :
  delimited rest = true -> Json.span_digits rest = ("", rest).
Proof.
  intros [-> | (c & t & -> & [-> | ->])]%delimited_cases; reflexivity.
Qed.

Lemma span_digits_uint (d : Decimal.uint) (rest : string) :
  delimited rest = true ->
  Json.span_digits (NilEmpty.string_of_uint d ++ rest)
  = (NilEmpty.string_of_uint d, rest).
Proof.
  intros Hrest.
  induction d; cbn [NilEmpty.string_of_uint];
    rewrite ?string_app_nil_l, ?string_app_cons;
    [by apply span_digits_delimited | ..];
    cbn [Json.span_digits]; rewrite IHd; reflexivity.
Qed.

Lemma to_uint_normal (p : positive) :
  Decimal.nzhead (Pos.to_uint p) = Pos.to_uint p /\ Pos.to_uint p <> Decimal.Nil.
Proof.
  pose proof (DecimalPos.Unsigned.to_of (Pos.to_uint p)) as Hto.
  rewrite DecimalPos.Unsigned.of_to in Hto. cbn [N.to_uint] in Hto.
  pose proof (DecimalPos.Unsigned.to_uint_nonzero p) as Hnz.
  pose proof (DecimalPos.Unsigned.to_uint_nonnil p) as Hnn.
  split; [|done].
  destruct (Decimal.nzhead (Pos.to_uint p)) eqn:Hhead;
    [ exfalso; apply Hnz; rewrite Hto; by apply DecimalFacts.unorm_0 | ..];
    symmetry; rewrite Hto at 1; rewrite <- Hhead;
    apply DecimalFacts.unorm_nzhead; by rewrite Hhead.
Qed.

Lemma match_unsigned_uint (d : Decimal.uint) (rest : string) :
  Decimal.nzhead d = d -> d <> Decimal.Nil -> delimited rest = true ->
  Json.match_unsigned (NilEmpty.string_of_uint d ++ rest)
  = Some (NilEmpty.string_of_uint d, rest).
Proof.
  intros Hhead Hnil Hrest.
  destruct d; [done | by destruct (DecimalFacts.nzhead_nonzero (Decimal.D0 d) d) | ..];
    cbn [NilEmpty.string_of_uint]; rewrite string_app_cons;
    unfold Json.match_unsigned; cbn [Ascii.eqb Bool.eqb Json.is_digit];
    (rewrite span_digits_uint by done); reflexivity.
Qed.

Lemma int_repr_digits (z : Z) :
  int_repr z = NilEmpty.string_of_int (Z.to_int z).
Proof.
  unfold int_repr. destruct z as [|p|p]; [reflexivity | ..];
    cbn [Z.to_int NilZero.string_of_int NilEmpty.string_of_int NilZero.string_of_uint];
    destruct (to_uint_normal p) as [_ Hnil];
    by destruct (Pos.to_uint p).
Qed.

Lemma int_of_text_repr (z : Z) : Json.int_of_text (int_repr z) = z.
Proof.
  unfold Json.int_of_text. rewrite int_repr_digits, NilEmpty.isi.
  apply DecimalZ.of_to.
Qed.

Lemma match_integer_repr (z : Z) (rest : string) :
  delimited rest = true ->
  Json.match_integer (int_repr z ++ rest) = Some (int_repr z, rest).
Proof.
  intros Hrest. rewrite int_repr_digits.
  destruct z as [|p|p]; [reflexivity | ..];
    cbn [Z.to_int NilEmpty.string_of_int];
    destruct (to_uint_normal p) as [Hhead Hnil].
  - pose proof (match_unsigned_uint _ rest Hhead Hnil Hrest) as Hm.
    destruct (Pos.to_uint p); [done | by destruct (DecimalFacts.nzhead_nonzero (Decimal.D0 u) u) | ..];
      exact Hm.
  - rewrite string_app_cons. unfold Json.match_integer.
    cbn [Ascii.eqb Bool.eqb]. by rewrite match_unsigned_uint.
Qed.

Lemma match_frac_delimited (rest : string) :
  delimited rest = true -> Json.match_frac rest = None.
Proof.
  intros [-> | (c & t & -> & [-> | ->])]%delimited_cases; reflexivity.
Qed.

Lemma match_exp_delimited (rest : string) :
  delimited rest = true -> Json.match_exp rest = None.
Proof.
  intros [-> | (c & t & -> & [-> | ->])]%delimited_cases; reflexivity.
Qed.

Lemma scan_number_repr (z : Z) (rest : string) :
  delimited rest = true ->
  Json.scan_number (int_repr z ++ rest) = inr (PyInt z, rest).
Proof.
  intros Hrest. unfold Json.scan_number.
  rewrite match_integer_repr, match_frac_delimited, match_exp_delimited by done.
  by rewrite int_of_text_repr.
Qed.

Lemma uint_head (d : Decimal.uint) :
  d <> Decimal.Nil ->
  exists c t, NilEmpty.string_of_uint d = String c t /\ Json.is_digit c = true.
Proof. destruct d; [done | ..]; intros _; cbn; eauto. Qed.

Lemma int_repr_head (z : Z) :
  exists c t, int_repr z = String c t /\ number_start c = true.
Proof.
  rewrite int_repr_digits. destruct z as [|p|p]; cbn [Z.to_int NilEmpty.string_of_int].
  - by exists "0"%char, "".
  - destruct (uint_head (Pos.to_uint p)) as (c & t & -> & Hc);
      [apply to_uint_normal|].
    exists c, t. unfold number_start. by rewrite Hc.
  - by exists "-"%char, (NilEmpty.string_of_uint (Pos.to_uint p)).
Qed.

Lemma number_start_value_start (c : ascii) :
  number_start c = true -> value_start c = true.
Proof. destruct c as [[] [] [] [] [] [] [] []]; vm_compute; congruence. Qed.

Lemma scan_once_number (c : ascii) (t : string) (f : nat) :
  number_start c = true ->
  Json.scan_once (S f) (String c t) = Json.scan_number (String c t).
Proof.
  destruct c as [[] [] [] [] [] [] [] []];
    (intros Hc; vm_compute in Hc; discriminate) || (intros _; reflexivity).
Qed.

Lemma scan_once_int (z : Z) (rest : string) (f : nat) :
  delimited rest = true ->
  Json.scan_once (S f) (int_repr z ++ rest) = inr (PyInt z, rest).
Proof.
  intros Hrest. rewrite <- scan_number_repr by done.
  destruct (int_repr_head z) as (c & t & -> & Hc).
  rewrite string_app_cons. by apply scan_once_number.
Qed.

Lemma pyobj_ind (P : pyobj -> Prop) :
  P PyNone ->
  (forall b, P (PyBool b)) ->
  (forall z, P (PyInt z)) ->
  (forall s, P (PyStr s)) ->
  (forall items, Forall P items -> P (PyList items)) ->
  (forall entries, Forall (fun kv => P (snd kv)) entries -> P (PyDict entries)) ->
  forall v, P v.
Proof.
  intros Hnone Hbool Hint Hstr Hlist Hdict.
  fix IH 1. intros [ | b | z | s | items | entries].
  - exact Hnone.
  - apply Hbool.
  - apply Hint.
  - apply Hstr.
  - apply Hlist. induction items as [|x items IHitems]; constructor.
    + apply IH.
    + exact IHitems.
  - apply Hdict. induction entries as [|[k x] entries IHentries]; constructor.
    + apply IH.
    + exact IHentries.
Qed.

Lemma unique_keys_NoDup (keys : list string) :
  unique_keys keys = true <-> NoDup keys.
Proof.
  induction keys as [|k ks IH]; cbn.
  - split; [constructor | done].
  - rewrite andb_true_iff, negb_true_iff, IH, NoDup_cons. split.
    + intros [Hk Hks]. split; [|done]. intros Hin.
      assert (existsb (String.eqb k) ks = true); [|congruence].
      apply existsb_exists. exists k. rewrite String.eqb_refl.
      split; [by apply list_elem_of_In | done].
    + intros [Hk Hks]. split; [|done].
      destruct (existsb (String.eqb k) ks) eqn:Hex; [|done].
      apply existsb_exists in Hex as (k' & Hin & ->%String.eqb_eq).
      by apply list_elem_of_In in Hin.
Qed.

Lemma dict_set_fresh (d : dict) (k : string) (v : pyobj) :
  k ∉ List.map fst d -> Json.dict_set d k v = (d ++ [(k, v)])%list.
Proof.
  induction d as [|[k' v'] d IH]; [done|]. cbn. intros Hk.
  apply not_elem_of_cons in Hk as [Hne Hk].
  destruct (String.eqb_spec k' k); [congruence|]. by rewrite IH.
Qed.

Lemma dict_of_pairs_fold (pairs acc : dict) :
  NoDup (List.map fst (acc ++ pairs)) ->
  fold_left (fun d kv => Json.dict_set d (fst kv) (snd kv)) pairs acc
  = (acc ++ pairs)%list.
Proof.
  revert acc. induction pairs as [|[k v] pairs IH]; intros acc Hnd; cbn.
  - by rewrite app_nil_r.
  - rewrite dict_set_fresh.
    + rewrite IH; rewrite <- app_assoc; done.
    + rewrite map_app in Hnd. apply NoDup_app in Hnd as (_ & Hdisj & _).
      intros Hin. apply (Hdisj k Hin). cbn. left.
Qed.

Lemma dict_of_pairs_unique (pairs : dict) :
  unique_keys (List.map fst pairs) = true -> Json.dict_of_pairs pairs = pairs.
Proof.
  intros Hu%unique_keys_NoDup. unfold Json.dict_of_pairs.
  by rewrite dict_of_pairs_fold.
Qed.

Lemma encode_head (level : nat) (v : pyobj) :
  exists c t, Json.encode level v = String c t /\ value_start c = true.
Proof.
  destruct v as [ | [] | z | s | [|x items] | [|kv entries]];
    try (cbn; eexists _, _; split; [reflexivity | reflexivity]).
  cbn [Json.encode]. destruct (int_repr_head z) as (c & t & -> & Hc).
  exists c, t. split; [done | by apply number_start_value_start].
Qed.

Lemma value_start_not_ws (c : ascii) : value_start c = true -> Json.is_ws c = false.
Proof.
  unfold value_start. rewrite !andb_true_iff, !negb_true_iff. tauto.
Qed.

Lemma value_start_not_close (c : ascii) :
  value_start c = true -> Ascii.eqb c "]" = false.
Proof.
  unfold value_start. rewrite !andb_true_iff, !negb_true_iff. tauto.
Qed.

Lemma skip_ws_encode (level : nat) (v : pyobj) (rest : string) :
  Json.skip_ws (Json.encode level v ++ rest) = Json.encode level v ++ rest.
Proof.
  destruct (encode_head level v) as (c & t & -> & Hc). rewrite string_app_cons.
  apply skip_ws_start. by apply value_start_not_ws.
Qed.

Lemma encode_length (level : nat) (v : pyobj) :
  (1 <= String.length (Json.encode level v))%nat.
Proof.
  destruct (encode_head level v) as (c & t & -> & _). cbn. lia.
Qed.

Lemma delimited_newline_indent (level : nat) (s : string) :
  delimited (Json.newline_indent level ++ s) = true.
Proof. reflexivity. Qed.

Lemma delimited_comma (s : string) : delimited ("," ++ s) = true.
Proof. reflexivity. Qed.

Lemma parse_items_eq (f : nat) (s : string) :
  Json.parse_items (S f) s
  = match Json.scan_once f s with
    | inl e => inl e
    | inr (value, s1) =>
        match Json.skip_ws s1 with
        | EmptyString => inl (Json.JSONDecodeError "Expecting ',' delimiter")
        | String c r =>
            if Ascii.eqb c "]" then inr ([value], r)
            else if Ascii.eqb c "," then
              match Json.parse_items f (Json.skip_ws r) with
              | inl e => inl e
              | inr (values, r') => inr (value :: values, r')
              end
            else inl (Json.JSONDecodeError "Expecting ',' delimiter")
        end
    end.
Proof. reflexivity. Qed.

Lemma items_text_cons (level : nat) (x y : pyobj) (items : list pyobj) :
  items_text level (x :: y :: items)
  = Json.encode level x ++ ("," ++ Json.newline_indent level) ++
    items_text level (y :: items).
Proof. reflexivity. Qed.

Lemma parse_items_encode (level : nat) (items : list pyobj) :
  Forall decodes items ->
  forall (x : pyobj) (fuel : nat) (rest : string),
    decodes x ->
    forallb well_formed (x :: items) = true ->
    (String.length (items_text (S level) (x :: items)) < fuel)%nat ->
    Json.parse_items fuel
      (items_text (S level) (x :: items) ++ Json.newline_indent level ++ "]" ++ rest)
    = inr (x :: items, rest).
Proof.
  induction 1 as [|y items Hy Hitems IH]; intros x fuel rest Hx Hwf Hfuel.
  - cbn in Hwf. rewrite andb_true_r in Hwf.
    unfold items_text in *. cbn [List.map str_join] in *.
    destruct fuel as [|f]; [lia|]. rewrite parse_items_eq.
    rewrite Hx; [| done | lia | apply delimited_newline_indent].
    rewrite skip_ws_newline_indent. reflexivity.
  - cbn [forallb] in Hwf. apply andb_true_iff in Hwf as [Hwfx Hwf].
    rewrite items_text_cons in *. rewrite !string_length_app in Hfuel.
    destruct fuel as [|f]; [lia|]. rewrite parse_items_eq.
    rewrite !string_app_assoc.
    rewrite Hx; [| done | lia | apply delimited_comma].
    rewrite string_app_cons, string_app_nil_l. cbn [Json.skip_ws].
    change (Json.is_ws ",") with false. cbn iota.
    change (Ascii.eqb "," "]") with false. change (Ascii.eqb "," ",") with true.
    cbn iota. rewrite skip_ws_newline_indent.
    pose proof (encode_length (S level) x).
    assert (Hskip : Json.skip_ws
              (items_text (S level) (y :: items) ++
               Json.newline_indent level ++ "]" ++ rest)
            = items_text (S level) (y :: items) ++
              Json.newline_indent level ++ "]" ++ rest).
    { destruct items as [|z items'].
      - unfold items_text. cbn [List.map str_join]. apply skip_ws_encode.
      - rewrite items_text_cons, !string_app_assoc. apply skip_ws_encode. }
    rewrite Hskip, IH; [done | done | done |].
    cbn [String.length] in Hfuel. lia.
Qed.

Lemma entry_text_tail (level : nat) (kv : string * pyobj) :
  entry_text level kv = String dquote (entry_tail level kv).
Proof.
  destruct kv as [k x]. unfold entry_text, entry_tail, Json.encode_basestring.
  by rewrite !string_app_cons, !string_app_assoc, string_app_cons, string_app_nil_l.
Qed.

Lemma str_join_cons (sep x y : string) (l : list string) :
  str_join sep (x :: y :: l) = x ++ sep ++ str_join sep (y :: l).
Proof. reflexivity. Qed.

Lemma entries_text_cons (level : nat) (kv kv' : string * pyobj) (entries : dict) :
  entries_text level (kv :: kv' :: entries)
  = entry_text level kv ++ ("," ++ Json.newline_indent level) ++
    entries_text level (kv' :: entries).
Proof. reflexivity. Qed.

Lemma entries_text_split (level : nat) (kv : string * pyobj) (entries : dict)
    (rest : string) :
  entries_text (S level) (kv :: entries) ++ Json.newline_indent level ++ "}" ++ rest
  = String dquote (entry_tail (S level) kv ++ after_entries level entries rest).
Proof.
  unfold after_entries. destruct entries as [|kv' entries].
  - unfold entries_text. cbn [List.map str_join].
    by rewrite entry_text_tail, string_app_cons.
  - rewrite entries_text_cons, entry_text_tail.
    by string_norm.
Qed.

Lemma entries_text_length (level : nat) (k : string) (x : pyobj) (entries : dict) :
  (String.length (Json.encode level x) + 4 +
   match entries with
   | [] => 0
   | _ :: _ => 1 + String.length (entries_text level entries)
   end
   <= String.length (entries_text level ((k, x) :: entries)))%nat.
Proof.
  destruct entries as [|kv' entries].
  - unfold entries_text. cbn [List.map str_join]. rewrite entry_text_tail.
    unfold entry_tail.
    cbn [String.length]. rewrite string_length_app. cbn [String.length].
    rewrite string_length_app. cbn [String.length]. lia.
  - rewrite entries_text_cons, entry_text_tail. unfold entry_tail.
    rewrite string_app_cons. cbn [String.length].
    rewrite !string_length_app. cbn [String.length].
    rewrite !string_length_app. cbn [String.length]. lia.
Qed.

Lemma delimited_after_entries (level : nat) (entries : dict) (rest : string) :
  delimited (after_entries level entries rest) = true.
Proof. by destruct entries. Qed.

Lemma parse_pairs_eq (f : nat) (s : string) :
  Json.parse_pairs (S f) s
  = match Json.scanstring s with
    | inl e => inl e
    | inr (key, s1) =>
        match Json.skip_ws s1 with
        | EmptyString => inl (Json.JSONDecodeError "Expecting ':' delimiter")
        | String c s2 =>
            if Ascii.eqb c ":" then
              match Json.scan_once f (Json.skip_ws s2) with
              | inl e => inl e
              | inr (value, s3) =>
                  match Json.skip_ws s3 with
                  | EmptyString => inl (Json.JSONDecodeError "Expecting ',' delimiter")
                  | String c' r =>
                      if Ascii.eqb c' "}" then inr ([(key, value)], r)
                      else if Ascii.eqb c' "," then
                        match Json.skip_ws r with
                        | EmptyString =>
                            inl (Json.JSONDecodeError
                                   "Expecting property name enclosed in double quotes")
                        | String q r' =>
                            if Ascii.eqb q dquote then
                              match Json.parse_pairs f r' with
                              | inl e => inl e
                              | inr (pairs, r'') => inr ((key, value) :: pairs, r'')
                              end
                            else inl (Json.JSONDecodeError
                                        "Expecting property name enclosed in double quotes")
                        end
                      else inl (Json.JSONDecodeError "Expecting ',' delimiter")
                  end
              end
            else inl (Json.JSONDecodeError "Expecting ':' delimiter")
        end
    end.
Proof. reflexivity. Qed.

Lemma parse_pairs_step (level f : nat) (k : string) (x : pyobj) (more : string) :
  decodes x -> well_formed x = true ->
  (String.length (Json.encode (S level) x) <= f)%nat ->
  delimited more = true ->
  Json.parse_pairs (S f) (entry_tail (S level) (k, x) ++ more)
  = match Json.skip_ws more with
    | EmptyString => inl (Json.JSONDecodeError "Expecting ',' delimiter")
    | String c' r =>
        if Ascii.eqb c' "}" then inr ([(k, x)], r)
        else if Ascii.eqb c' "," then
          match Json.skip_ws r with
          | EmptyString =>
              inl (Json.JSONDecodeError
                     "Expecting property name enclosed in double quotes")
          | String q r' =>
              if Ascii.eqb q dquote then
                match Json.parse_pairs f r' with
                | inl e => inl e
                | inr (pairs, r'') => inr ((k, x) :: pairs, r'')
                end
              else inl (Json.JSONDecodeError
                          "Expecting property name enclosed in double quotes")
          end
        else inl (Json.JSONDecodeError "Expecting ',' delimiter")
    end.
Proof.
  intros Hx Hwf Hf Hmore. rewrite parse_pairs_eq. unfold entry_tail.
  rewrite string_app_assoc, string_app_cons, scanstring_escape.
  string_norm. cbn [Json.skip_ws].
  change (Json.is_ws ":") with false. change (Json.is_ws " ") with true.
  cbn iota. change (Ascii.eqb ":" ":") with true. cbn iota.
  change (Json.skip_ws (String " " ?s)) with (Json.skip_ws s).
  rewrite skip_ws_encode. by rewrite Hx.
Qed.

Lemma parse_pairs_encode (level : nat) (entries : dict) :
  Forall (fun kv => decodes (snd kv)) entries ->
  forall (k : string) (x : pyobj) (fuel : nat) (rest : string),
    decodes x ->
    forallb (fun kv => match kv with (_, y) => well_formed y end)
            ((k, x) :: entries) = true ->
    (String.length (entries_text (S level) ((k, x) :: entries)) <= fuel)%nat ->
    Json.parse_pairs fuel
      (entry_tail (S level) (k, x) ++ after_entries level entries rest)
    = inr ((k, x) :: entries, rest).
Proof.
  induction 1 as [|[k' x'] entries Hx' Hentries IH];
    intros k x fuel rest Hx Hwf Hfuel;
    cbn [forallb] in Hwf; apply andb_true_iff in Hwf as [Hwfx Hwf].
  - pose proof (entries_text_length (S level) k x []) as Hlen. cbn iota in Hlen.
    destruct fuel as [|f]; [lia|].
    rewrite parse_pairs_step; [| done | done | lia | apply delimited_after_entries].
    unfold after_entries. rewrite skip_ws_newline_indent. reflexivity.
  - pose proof (entries_text_length (S level) k x ((k', x') :: entries)) as Hlen.
    cbn iota in Hlen.
    destruct fuel as [|f]; [lia|].
    rewrite parse_pairs_step; [| done | done | lia | apply delimited_after_entries].
    unfold after_entries. string_norm.
    cbn [Json.skip_ws]. change (Json.is_ws ",") with false. cbn iota.
    change (Ascii.eqb "," "}") with false. change (Ascii.eqb "," ",") with true.
    cbn iota. rewrite skip_ws_newline_indent.
    pose proof (entries_text_split level (k', x') entries rest) as Hsplit.
    string_norm_in Hsplit.
    rewrite Hsplit.
    cbn [Json.skip_ws]. change (Json.is_ws dquote) with false. cbn iota.
    rewrite Ascii.eqb_refl. cbn [snd] in Hx'. rewrite IH; [done | done | done | lia].
Qed.

Lemma newline_indent_length (level : nat) :
  (1 <= String.length (Json.newline_indent level))%nat.
Proof. unfold Json.newline_indent, nl. rewrite string_app_cons. cbn. lia. Qed.

Lemma items_text_head (level : nat) (x : pyobj) (items : list pyobj) :
  exists c t, items_text level (x :: items) = String c t /\ value_start c = true.
Proof.
  destruct (encode_head level x) as (c & t & Hx & Hc).
  destruct items as [|y items].
  - exists c, t. by unfold items_text.
  - rewrite items_text_cons, Hx, string_app_cons. eauto.
Qed.

Lemma scan_once_list_eq (f : nat) (rest : string) :
  Json.scan_once (S f) (String "[" rest)
  = match Json.skip_ws rest with
    | EmptyString => inl (Json.JSONDecodeError "Expecting value")
    | String c1 r1 =>
        if Ascii.eqb c1 "]" then inr (PyList [], r1)
        else
          match Json.parse_items f (String c1 r1) with
          | inl e => inl e
          | inr (items, r) => inr (PyList items, r)
          end
    end.
Proof. reflexivity. Qed.

Lemma scan_once_dict_eq (f : nat) (rest : string) :
  Json.scan_once (S f) (String "{" rest)
  = match Json.skip_ws rest with
    | EmptyString =>
        inl (Json.JSONDecodeError "Expecting property name enclosed in double quotes")
    | String c1 r1 =>
        if Ascii.eqb c1 "}" then inr (PyDict [], r1)
        else if Ascii.eqb c1 dquote then
          match Json.parse_pairs f r1 with
          | inl e => inl e
          | inr (pairs, r) => inr (PyDict (Json.dict_of_pairs pairs), r)
          end
        else inl (Json.JSONDecodeError
                    "Expecting property name enclosed in double quotes")
    end.
Proof. reflexivity. Qed.

Lemma scan_once_str_eq (f : nat) (rest : string) :
  Json.scan_once (S f) (String dquote rest)
  = match Json.scanstring rest with
    | inl e => inl e
    | inr (str, r) => inr (PyStr str, r)
    end.
Proof. reflexivity. Qed.

Lemma encode_list_cons (level : nat) (x : pyobj) (items : list pyobj) :
  Json.encode level (PyList (x :: items))
  = "[" ++ Json.newline_indent (S level) ++ items_text (S level) (x :: items) ++
    Json.newline_indent level ++ "]".
Proof. reflexivity. Qed.

Lemma encode_dict_cons (level : nat) (kv : string * pyobj) (entries : dict) :
  Json.encode level (PyDict (kv :: entries))
  = "{" ++ Json.newline_indent (S level) ++ entries_text (S level) (kv :: entries) ++
    Json.newline_indent level ++ "}".
Proof. reflexivity. Qed.

(** The decoder reads back what the encoder wrote, at any indentation
    level and before any delimiter. *)
Lemma scan_once_encode (v : pyobj) : decodes v.
Proof.
  induction v as [ | b | z | s | items IH | entries IH] using pyobj_ind;
    intros level fuel rest Hwf Hfuel Hrest.
  - destruct fuel as [|f]; [cbn in Hfuel; lia | reflexivity].
  - destruct fuel as [|f]; [destruct b; cbn in Hfuel; lia | by destruct b].
  - pose proof (encode_length level (PyInt z)).
    destruct fuel as [|f]; [lia|]. by apply scan_once_int.
  - destruct fuel as [|f]; [cbn in Hfuel; lia|].
    cbn [Json.encode]. unfold Json.encode_basestring. string_norm.
    by rewrite scan_once_str_eq, scanstring_escape.
  - destruct items as [|x items].
    { destruct fuel as [|f]; [cbn in Hfuel; lia | reflexivity]. }
    rewrite encode_list_cons in *. apply Forall_cons in IH as [Hx Hitems].
    rewrite !string_length_app in Hfuel. cbn [String.length] in Hfuel.
    pose proof (newline_indent_length (S level)).
    pose proof (newline_indent_length level).
    destruct fuel as [|f]; [lia|]. string_norm.
    rewrite scan_once_list_eq, skip_ws_newline_indent.
    destruct (items_text_head (S level) x items) as (c & t & Htext & Hc).
    pose proof (parse_items_encode level items Hitems x f rest Hx Hwf) as Hparse.
    rewrite Htext in *. rewrite string_app_cons in *.
    rewrite skip_ws_start by (by apply value_start_not_ws).
    rewrite value_start_not_close by done.
    string_norm_in Hparse. rewrite Hparse; [done|]. cbn [String.length] in *. lia.
  - destruct entries as [|[k x] entries].
    { destruct fuel as [|f]; [cbn in Hfuel; lia | reflexivity]. }
    rewrite encode_dict_cons in *. apply Forall_cons in IH as [Hx Hentries].
    cbn [snd] in Hx.
    rewrite !string_length_app in Hfuel. cbn [String.length] in Hfuel.
    pose proof (newline_indent_length (S level)).
    pose proof (newline_indent_length level).
    destruct fuel as [|f]; [lia|]. string_norm.
    rewrite scan_once_dict_eq, skip_ws_newline_indent.
    pose proof (entries_text_split level (k, x) entries rest) as Hsplit.
    string_norm_in Hsplit. rewrite Hsplit.
    cbn [Json.skip_ws]. change (Json.is_ws dquote) with false. cbn iota.
    change (Ascii.eqb dquote "}") with false. rewrite Ascii.eqb_refl. cbn iota.
    cbn [well_formed] in Hwf. apply andb_true_iff in Hwf as [Hkeys Hwf].
    rewrite (parse_pairs_encode level entries Hentries k x f rest Hx Hwf); [|lia].
    by rewrite dict_of_pairs_unique.
Qed.

Lemma loads_dumps (v : pyobj) :
  well_formed v = true -> Json.loads (Json.dumps v) = inr v.
Proof.
  intros Hwf. unfold Json.loads, Json.dumps.
  destruct (encode_head 0 v) as (c & t & Hhead & Hc).
  assert (Hbom : str_startswith (Json.encode 0 v) Json.BOM = false).
  { rewrite Hhead. unfold Json.BOM. cbn [str_startswith].
    unfold value_start in Hc. rewrite !andb_true_iff, !negb_true_iff in Hc.
    destruct Hc as [_ Hc]. by rewrite Ascii.eqb_sym, Hc. }
  rewrite Hbom.
  pose proof (skip_ws_encode 0 v "") as Hskip.
  pose proof (scan_once_encode v 0%nat (S (String.length (Json.encode 0 v))) ""
                Hwf ltac:(lia) eq_refl) as Hscan.
  rewrite string_app_nil_r in Hskip, Hscan. by rewrite Hskip, Hscan.
Qed.

(** ** [save_opportunities], [print_summary] and [main] *)

Section RunProperties.
Context `{PyText}.

Lemma print_opportunity_returns (opp : dict) (w : world) :
  exists w', print_opportunity opp w = (inr tt, w') /\ files w' = files w.
Proof. unfold print_opportunity. py_run. cbn. eauto. Qed.

Lemma for_each_print_returns (O : list dict) (w : world) :
  exists w', for_each O print_opportunity w = (inr tt, w') /\ files w' = files w.
Proof.
  revert w. induction O as [|opp O IH]; intros w; cbn [for_each].
  - by exists w.
  - destruct (print_opportunity_returns opp w) as (w1 & Hw1 & Hf1).
    destruct (IH w1) as (w2 & Hw2 & Hf2).
    exists w2. unfold mbind, py_bind, bind. rewrite Hw1, Hw2.
    split; [done | congruence].
Qed.

Lemma print_summary_returns (self : SAMGovScraper) (O : list dict)
    (title : string) (w : world) :
  exists w', print_summary self O title w = (inr tt, w') /\ files w' = files w.
Proof.
  unfold print_summary. py_run.
  match goal with |- context [for_each O print_opportunity ?w0] =>
    destruct (for_each_print_returns O w0) as (w' & Hw' & Hf')
  end.
  exists w'. rewrite Hw'. split; [done|]. by rewrite Hf'.
Qed.

Lemma save_opportunities_unfold (self : SAMGovScraper) (O : list dict)
    (prefix : string) (w : world) :
  save_opportunities self O prefix w
  = (write_text_file (saved_filename prefix (clock w (ticks w)))
       (Json.dumps (PyList (List.map PyDict O)));;
     print ("Saved " ++ int_repr (py_len O) ++ " opportunities to " ++
            saved_filename prefix (clock w (ticks w))))
      (set_ticks (S (ticks w)) w).
Proof.
  unfold save_opportunities, saved_filename, strftime_YmdHMS.
  unfold mbind at 1, py_bind, bind at 1, datetime_now. cbn beta iota.
  by rewrite !string_app_assoc.
Qed.

Lemma bind_congr {A B} (m m' : Py A) (k k' : A -> Py B) (w : world) :
  m w = m' w -> (forall a w', k a w' = k' a w') -> bind m k w = bind m' k' w.
Proof.
  intros Hm Hk. unfold bind. rewrite Hm.
  destruct (m' w) as [[e|a] w']; [done | apply Hk].
Qed.

(** On a list of dictionaries the three methods on objects are the
    methods on lists of dictionaries. *)
Lemma save_object_list (self : SAMGovScraper) (O : list dict) (prefix : string)
    (w : world) :
  save_object self (PyList (List.map PyDict O)) prefix w
  = save_opportunities self O prefix w.
Proof.
  unfold save_object, save_opportunities, py_len_obj, py_len.
  rewrite length_map. reflexivity.
Qed.

Lemma filter_items_list (M : list string) (O filtered : list dict) :
  filter_items M (List.map PyDict O) filtered
  = inr (fold_left
           (fun (filtered : list dict) (opp : dict) =>
              if all_keywords_present M (searchable_text opp)
              then (filtered ++ [opp])%list
              else filtered)
           O filtered).
Proof.
  revert filtered. induction O as [|opp O IH]; intros filtered; [done|].
  cbn [List.map filter_items fold_left]. apply IH.
Qed.

Lemma filter_object_list (O : list dict) (M : list string) :
  filter_object (PyList (List.map PyDict O)) M = inr (filter_opportunities O M).
Proof. unfold filter_object, py_iter. apply filter_items_list. Qed.

Lemma for_each_print_item (O : list dict) (w : world) :
  for_each (List.map PyDict O) print_item w = for_each O print_opportunity w.
Proof.
  revert w. induction O as [|opp O IH]; intros w; [done|].
  cbn [List.map for_each]. apply bind_congr; [done|]. intros _ w'. apply IH.
Qed.

Lemma print_summary_object_list (self : SAMGovScraper) (O : list dict)
    (title : string) (w : world) :
  print_summary_object self (PyList (List.map PyDict O)) title w
  = print_summary self O title w.
Proof.
  unfold print_summary_object, print_summary, py_len_obj, py_iter, py_len.
  unfold mbind, py_bind, bind, lift, ret, print. cbn beta iota.
  rewrite length_map. apply for_each_print_item.
Qed.

Lemma main_unfold (key : string) (w w1 : world) (O : list dict) :
  search_opportunities (new_scraper key) ["software"; "development"; "cloud"] 30 100
    (set_stdout (stdout w ++ ["Searching for opportunities..."]) w)
  = (inr (PyList (List.map PyDict O)), w1) ->
  main key w
  = (save_opportunities (new_scraper key) O "all_opportunities";;
     save_opportunities (new_scraper key)
       (filter_opportunities O ["python"; "aws"]) "filtered_opportunities";;
     print_summary (new_scraper key) O "All Opportunities";;
     print_summary (new_scraper key)
       (filter_opportunities O ["python"; "aws"]) "Filtered Opportunities") w1.
Proof.
  intros Hsearch. unfold main. cbv beta iota zeta delta [mbind py_bind].
  unfold bind at 1 2, print at 1. cbn beta iota.
  rewrite Hsearch. apply bind_congr; [apply save_object_list|]. intros _ w2.
  rewrite filter_object_list. unfold bind at 1, lift, ret. cbn beta iota.
  apply bind_congr; [done|]. intros _ w3.
  apply bind_congr; [apply print_summary_object_list | done].
Qed.

End RunProperties.

(** C8: [save_opportunities] has no handler: when opening the file
    fails, or writing to it fails, the exception is the outcome of the
    call and the confirmation line is not printed; and [main], which has
    no handler either, ends with that exception whichever of its two
    saves raised it. *)
Theorem save_opportunities_propagates_errors :
  (forall (self : SAMGovScraper) (O : list dict) (prefix : string)
          (w : world) (e : exn),
     open_error w (saved_filename prefix (clock w (ticks w))) = Some e ->
     let run := save_opportunities self O prefix w in
     fst run = inl e /\ files (snd run) = files w /\ stdout (snd run) = stdout w)
  /\
  (forall (self : SAMGovScraper) (O : list dict) (prefix : string)
          (w : world) (e : exn) (written : string),
     open_error w (saved_filename prefix (clock w (ticks w))) = None ->
     write_error w (saved_filename prefix (clock w (ticks w)))
                 (Json.dumps (PyList (List.map PyDict O))) = Some (e, written) ->
     let run := save_opportunities self O prefix w in
     fst run = inl e /\ stdout (snd run) = stdout w)
  /\
  (forall (T : PyText) (key : string) (w w1 : world) (O : list dict) (e : exn),
     search_opportunities (new_scraper key) ["software"; "development"; "cloud"] 30 100
       (set_stdout (stdout w ++ ["Searching for opportunities..."]) w)
     = (inr (PyList (List.map PyDict O)), w1) ->
     fst (save_opportunities (new_scraper key) O "all_opportunities" w1) = inl e ->
     fst (main key w) = inl e)
  /\
  (forall (T : PyText) (key : string) (w w1 w2 : world) (O : list dict) (e : exn),
     search_opportunities (new_scraper key) ["software"; "development"; "cloud"] 30 100
       (set_stdout (stdout w ++ ["Searching for opportunities..."]) w)
     = (inr (PyList (List.map PyDict O)), w1) ->
     save_opportunities (new_scraper key) O "all_opportunities" w1 = (inr tt, w2) ->
     fst (save_opportunities (new_scraper key)
            (filter_opportunities O ["python"; "aws"]) "filtered_opportunities" w2)
     = inl e ->
     fst (main key w) = inl e).
Proof.
  split; [|split; [|split]].
  - intros self O prefix w e Hopen. cbn zeta.
    rewrite save_opportunities_unfold. unfold write_text_file. py_run.
    cbn [open_error set_ticks]. by rewrite Hopen.
  - intros self O prefix w e written Hopen Hwrite. cbn zeta.
    rewrite save_opportunities_unfold. unfold write_text_file. py_run.
    cbn [open_error set_ticks]. write_error_frame. by rewrite Hopen, Hwrite.
  - intros T key w w1 O e Hsearch Hsave.
    rewrite (main_unfold _ _ _ _ Hsearch).
    unfold mbind at 1, py_bind, bind at 1.
    destruct (save_opportunities (new_scraper key) O "all_opportunities" w1)
      as [[e'|[]] w2]; cbn in Hsave |- *; congruence.
  - intros T key w w1 w2 O e Hsearch Hsave1 Hsave2.
    rewrite (main_unfold _ _ _ _ Hsearch).
    unfold mbind at 1 2, py_bind, bind at 1 2. rewrite Hsave1.
    destruct (save_opportunities (new_scraper key)
                (filter_opportunities O ["python"; "aws"]) "filtered_opportunities" w2)
      as [[e'|[]] w3]; cbn in Hsave2 |- *; congruence.
Qed.

(** C3, at a null field: the search string of an opportunity whose
    [description] is JSON [null] contains the text [none], so the keyword
    ["none"] keeps it, while the same opportunity without the field has
    an empty description and is dropped. *)
Theorem null_field_searched_as_None :
  @searchable_text ascii_text null_description = "road repair none  " /\
  @searchable_text ascii_text no_description = "road repair   " /\
  @filter_opportunities ascii_text [null_description] ["none"] = [null_description] /\
  @filter_opportunities ascii_text [no_description] ["none"] = [].
Proof. repeat split; reflexivity. Qed.




(** ** More on [filter_opportunities] *)

Lemma filter_filter_andb {A} (f g : A -> bool) (l : list A) :
  List.filter g (List.filter f l) = List.filter (fun x => f x && g x) l.
Proof.
  induction l as [|x l IH]; [done|]. cbn.
  destruct (f x) eqn:Hf; cbn; [|done]. destruct (g x); by rewrite IH.
Qed.

Lemma all_keywords_present_app `{PyText} (M1 M2 : list string) (t : string) :
  all_keywords_present (M1 ++ M2) t
  = all_keywords_present M1 t && all_keywords_present M2 t.
Proof. apply forallb_app. Qed.

Lemma all_keywords_present_lowered `{PyText} (M : list string) (t : string) :
  all_keywords_present M t = true <->
  forall k, In k (List.map str_lower M) -> str_contains k t = true.
Proof.
  unfold all_keywords_present. rewrite forallb_forall. split.
  - intros Hall k (k0 & <- & Hk0)%in_map_iff. by apply Hall.
  - intros Hall k Hk. apply Hall. by apply in_map.
Qed.

Lemma searchable_text_four_fields `{PyText} (a b : dict) :
  dict_lookup a "title" = dict_lookup b "title" ->
  dict_lookup a "description" = dict_lookup b "description" ->
  dict_lookup a "type" = dict_lookup b "type" ->
  dict_lookup a "classificationCode" = dict_lookup b "classificationCode" ->
  searchable_text a = searchable_text b.
Proof.
  intros H1 H2 H3 H4. unfold searchable_text, dict_get.
  by rewrite H1, H2, H3, H4.
Qed.

(** X2: filtering twice is filtering once by both keyword lists:
    filtering the result of a filter by a second list gives what one
    filter by the two lists appended gives, so the order of two filters
    does not matter. *)
Theorem filter_opportunities_compose :
  forall (T : PyText) (O : list dict) (M1 M2 : list string),
    filter_opportunities (filter_opportunities O M1) M2
    = filter_opportunities O (M1 ++ M2) /\
    filter_opportunities (filter_opportunities O M1) M2
    = filter_opportunities (filter_opportunities O M2) M1.
Proof.
  intros T O M1 M2. rewrite !filter_opportunities_filter, !filter_filter_andb.
  split; apply List.filter_ext; intros opp; cbn beta.
  - by rewrite all_keywords_present_app.
  - apply andb_comm.
Qed.

(** X3: only the set of lowered keywords counts: two keyword lists
    with the same lowered keywords, whatever their order, case and
    repetitions, keep the same opportunities. *)
Theorem filter_opportunities_keyword_set :
  forall (T : PyText) (O : list dict) (M1 M2 : list string),
    (forall k : string, In k (List.map str_lower M1) <-> In k (List.map str_lower M2)) ->
    filter_opportunities O M1 = filter_opportunities O M2.
Proof.
  intros T O M1 M2 Hsame. rewrite !filter_opportunities_filter.
  apply List.filter_ext. intros opp. apply eq_true_iff_eq.
  rewrite !all_keywords_present_lowered.
  split; intros Hall k Hk; apply Hall; by apply Hsame.
Qed.

(** X4: the filter reads four fields and nothing else, and decides each
    opportunity on its own: the result for a list is the results of its
    parts put together, and two opportunities with the same [title],
    [description], [type] and [classificationCode] are both kept or both
    dropped, whatever their other fields. *)
Theorem filter_opportunities_reads_four_fields :
  forall (T : PyText) (M : list string) (a b : dict),
    dict_lookup a "title" = dict_lookup b "title" ->
    dict_lookup a "description" = dict_lookup b "description" ->
    dict_lookup a "type" = dict_lookup b "type" ->
    dict_lookup a "classificationCode" = dict_lookup b "classificationCode" ->
    forall O1 O2 : list dict,
      filter_opportunities (O1 ++ a :: O2) M
      = (filter_opportunities O1 M ++ filter_opportunities [a] M ++
         filter_opportunities O2 M)%list /\
      (filter_opportunities [a] M = [a] /\ filter_opportunities [b] M = [b] \/
       filter_opportunities [a] M = [] /\ filter_opportunities [b] M = []).
Proof.
  intros T M a b H1 H2 H3 H4 O1 O2. split.
  - change (a :: O2) with ([a] ++ O2)%list. by rewrite !filter_opportunities_app.
  - rewrite !filter_opportunities_cons.
    rewrite (searchable_text_four_fields a b H1 H2 H3 H4).
    destruct (all_keywords_present M (searchable_text b)); auto.
Qed.

Lemma filter_sublist_mono {A} (f : A -> bool) (l1 l2 : list A) :
  l1 `sublist_of` l2 -> List.filter f l1 `sublist_of` List.filter f l2.
Proof.
  induction 1 as [|x l1 l2 Hsub IH|x l1 l2 Hsub IH]; cbn.
  - constructor.
  - destruct (f x); [by apply sublist_skip | done].
  - destruct (f x); [by apply sublist_cons | done].
Qed.

(** X5: the filter is monotone in the list: from a subsequence of the
    opportunities it keeps a subsequence of what it keeps from all of
    them, and it never returns more opportunities than it was given. *)
Theorem filter_opportunities_monotone :
  forall (T : PyText) (O1 O2 : list dict) (M : list string),
    O1 `sublist_of` O2 ->
    filter_opportunities O1 M `sublist_of` filter_opportunities O2 M /\
    (length (filter_opportunities O1 M) <= length O1)%nat.
Proof.
  intros T O1 O2 M Hsub. rewrite !filter_opportunities_filter. split.
  - by apply filter_sublist_mono.
  - apply List.filter_length_le.
Qed.

(** X6: the keyword query does not escape the quotes of a keyword: a
    keyword that holds the text [" OR "] between two quotes gives the
    query of two keywords, so different keyword lists can send the same
    query. *)
Theorem keyword_query_not_escaped :
  forall (a b : string) (K : list string),
    keyword_query ((a ++ String dquote (" OR " ++ String dquote b)) :: K)
    = keyword_query (a :: b :: K).
Proof.
  intros a b K. unfold keyword_query. cbn [List.map].
  assert (Hhead : forall rest : string,
            quoted (a ++ String dquote (" OR " ++ String dquote b)) ++ rest
            = quoted a ++ " OR " ++ quoted b ++ rest).
  { intros rest. unfold quoted. string_norm. reflexivity. }
  destruct K as [|k K].
  - cbn [str_join List.map]. rewrite <- (string_app_nil_r (quoted (a ++ _))).
    rewrite Hhead. by rewrite string_app_nil_r.
  - cbn [str_join List.map]. by rewrite Hhead.
Qed.

(** ** More on [search_opportunities] *)

Ltac world_fields :=
  cbn [fst snd files stdout ticks clock transport open_error
       set_stdout set_ticks set_files set_transport] in *.

(** Closes a goal that asks for the lines a run appended to the console. *)
Ltac appended_lines :=
  unfold ret, raise; cbn beta iota; unfold set_stdout, set_ticks;
  cbn [fst snd files stdout ticks clock transport open_error];
  eexists _, _; rewrite <- ?app_assoc; cbn [app]; reflexivity.

Section SearchMore.
Context `{PyText}.

(** The outcome of the [try] statement of [search_opportunities]: some
    result, and a console that starts with the two announcement lines. *)
Lemma search_opportunities_answer (self : SAMGovScraper) (K : list string)
    (days limit : Z) (w : world) (start : datetime) :
  sub_days (clock w (ticks w)) days = inr start ->
  let announced :=
    ["Making request to " ++ base_url self;
     "Parameters: " ++
       py_repr (PyDict (req_params
          (search_request self K limit start (clock w (ticks w)))))] in
  exists (result : exn + pyobj) (out : list string),
    search_opportunities self K days limit w
    = (result,
       set_stdout (stdout w ++ announced ++ out)%list (set_ticks (S (ticks w)) w)).
Proof.
  intros Hstart announced. subst announced.
  rewrite (search_opportunities_unfold _ _ _ _ _ _ Hstart).
  py_run. unfold search_request. world_fields.
  destruct (transport w _) as [e|r].
  - destruct e as [cls msg [t|] | | | | | | | ]; cbn; world_fields; appended_lines.
  - destruct (negb (status_code r =? 200)); world_fields;
      destruct (http_error r) as [e|]; world_fields.
    all: try (destruct e as [cls msg [t|] | | | | | | | ]; cbn; world_fields;
              appended_lines).
    all: destruct (json r) as [e|data]; world_fields.
    all: try (destruct e as [cls msg [t|] | | | | | | | ]; cbn; world_fields;
              appended_lines).
    all: unfold ret, raise; cbn beta iota;
         destruct data as [ | b | z | s | items | entries]; world_fields.
    all: unfold dict_has;
         repeat match goal with
           | |- context [negb (str_contains ?a ?b)] => destruct (str_contains a b)
           | |- context [negb (existsb ?f ?l)] => destruct (existsb f l)
           | |- context [dict_lookup ?d ?k] => destruct (dict_lookup d k)
           end.
    all: cbn [negb]; world_fields; appended_lines.
Qed.

(** A run in any world is the run in the world with an empty console
    and a transport that always gives the one answer, its lines
    appended to the console. *)
Lemma search_opportunities_probe (self : SAMGovScraper) (K : list string)
    (days limit : Z) (w : world) (start : datetime) :
  sub_days (clock w (ticks w)) days = inr start ->
  let answer :=
    transport w (search_request self K limit start (clock w (ticks w))) in
  let probe :=
    search_opportunities self K days limit
      (set_stdout [] (set_transport (fun _ => answer) w)) in
  search_opportunities self K days limit w
  = (fst probe,
     set_stdout (stdout w ++ stdout (snd probe))%list (set_ticks (S (ticks w)) w)).
Proof.
  intros Hstart answer probe. subst probe answer.
  rewrite (search_opportunities_unfold _ _ _ _ w _ Hstart).
  rewrite (search_opportunities_unfold _ _ _ _ (set_stdout [] (set_transport _ w)) start)
    by exact Hstart.
  py_run. unfold search_request. world_fields.
  destruct (transport w _) as [e|r].
  - destruct e as [cls msg [t|] | | | | | | | ]; cbn; world_fields;
      unfold set_stdout, set_ticks, set_transport; world_fields;
      rewrite <- ?app_assoc; reflexivity.
  - destruct (negb (status_code r =? 200)); world_fields;
      destruct (http_error r) as [e|]; world_fields.
    all: try (destruct e as [cls msg [t|] | | | | | | | ]; cbn; world_fields;
              unfold set_stdout, set_ticks, set_transport; world_fields;
              rewrite <- ?app_assoc; reflexivity).
    all: destruct (json r) as [e|data]; world_fields.
    all: try (destruct e as [cls msg [t|] | | | | | | | ]; cbn; world_fields;
              unfold set_stdout, set_ticks, set_transport; world_fields;
              rewrite <- ?app_assoc; reflexivity).
    all: unfold ret, raise; cbn beta iota;
         destruct data as [ | b | z | s | items | entries]; world_fields.
    all: unfold dict_has;
         repeat match goal with
           | |- context [negb (str_contains ?a ?b)] => destruct (str_contains a b)
           | |- context [negb (existsb ?f ?l)] => destruct (existsb f l)
           | |- context [dict_lookup ?d ?k] => destruct (dict_lookup d k)
           end.
    all: cbn [negb]; world_fields;
         unfold ret, raise, set_stdout, set_ticks, set_transport; cbn beta iota;
         world_fields; rewrite <- ?app_assoc; reflexivity.
Qed.

Lemma search_opportunities_on_failure (self : SAMGovScraper) (K : list string)
    (days limit : Z) (w : world) (start : datetime) (msg : string) :
  sub_days (clock w (ticks w)) days = inr start ->
  transport_failure
    (transport w (search_request self K limit start (clock w (ticks w)))) msg ->
  fst (search_opportunities self K days limit w) = inr (PyList []).
Proof.
  intros Hstart Hfail.
  rewrite (search_opportunities_unfold _ _ _ _ _ _ Hstart).
  py_run. unfold search_request in *.
  cbn [req_params set_stdout set_ticks transport stdout] in *.
  destruct Hfail as [cls m rt | r cls m rt Herr | r cls m rt Herr Hjson];
    try rewrite Herr; try rewrite Hjson;
    try destruct (negb (status_code r =? 200)); destruct rt; reflexivity.
Qed.

Lemma search_opportunities_on_payload (self : SAMGovScraper) (K : list string)
    (days limit : Z) (w : world) (start : datetime) (r : response)
    (entries : dict) (v : pyobj) :
  sub_days (clock w (ticks w)) days = inr start ->
  transport w (search_request self K limit start (clock w (ticks w))) = inr r ->
  status_code r = 200 ->
  json r = inr (PyDict entries) ->
  dict_lookup entries "opportunitiesData" = Some v ->
  fst (search_opportunities self K days limit w) = inr v.
Proof.
  intros Hstart Hget Hstatus Hjson Hkey.
  rewrite (search_opportunities_unfold _ _ _ _ _ _ Hstart).
  py_run. unfold search_request in *.
  cbn [req_params set_stdout set_ticks transport stdout] in *.
  rewrite Hget. unfold http_error. rewrite Hstatus, Hjson. cbn.
  unfold dict_has. by rewrite Hkey.
Qed.

Lemma dict_repr_first (k : string) (v : pyobj) (entries : dict) :
  is_substring (py_repr v) (py_repr (PyDict ((k, v) :: entries))).
Proof.
  cbn [py_repr List.map]. destruct entries as [|kv entries].
  - cbn [List.map str_join]. exists ("{" ++ str_repr k ++ ": "), "}".
    by rewrite !string_app_assoc.
  - set (rest := List.map _ (kv :: entries)).
    change (str_join ", " (?x :: rest)) with (x ++ ", " ++ str_join ", " rest).
    exists ("{" ++ str_repr k ++ ": "), (", " ++ str_join ", " rest ++ "}").
    by rewrite !string_app_assoc.
Qed.

Lemma search_opportunities_raises (self : SAMGovScraper) (K : list string)
    (days limit : Z) (w : world) (e : exn) :
  sub_days (clock w (ticks w)) days = inl e ->
  search_opportunities self K days limit w = (inl e, set_ticks (S (ticks w)) w).
Proof.
  intros Hstart.
  unfold search_opportunities, mbind, py_bind, bind at 1, datetime_now.
  cbn beta iota. rewrite Hstart. reflexivity.
Qed.

(** X7: whatever the transport answers, a search writes no file, reads
    the clock once and only appends to the console; when the date window
    can be computed it prints its two announcement lines. *)
Theorem search_opportunities_frame :
  forall (self : SAMGovScraper) (K : list string) (days limit : Z) (w : world),
    let run := search_opportunities self K days limit w in
    files (snd run) = files w /\
    ticks (snd run) = S (ticks w) /\
    (exists out : list string, stdout (snd run) = (stdout w ++ out)%list) /\
    (forall start : datetime,
       sub_days (clock w (ticks w)) days = inr start ->
       let announced :=
         ["Making request to " ++ base_url self;
          "Parameters: " ++
            py_repr (PyDict (req_params
               (search_request self K limit start (clock w (ticks w)))))] in
       exists out : list string,
         stdout (snd run) = (stdout w ++ announced ++ out)%list).
Proof.
  intros self K days limit w run. subst run.
  destruct (sub_days (clock w (ticks w)) days) as [e|start] eqn:Hstart.
  - rewrite (search_opportunities_raises _ _ _ _ _ _ Hstart). world_fields.
    split; [done|]. split; [done|]. split; [|done].
    exists []. by rewrite app_nil_r.
  - destruct (search_opportunities_answer self K days limit w start Hstart)
      as (result & out & ->). world_fields.
    split; [done|]. split; [done|]. split.
    + eexists. reflexivity.
    + intros start' [= <-]. by exists out.
Qed.

(** X8: the outcome depends on the transport through one answer only,
    the answer to the request for the base URL with the fixed header and
    the five parameters. *)
Theorem search_opportunities_one_request :
  forall (self : SAMGovScraper) (K : list string) (days limit : Z) (w : world)
         (start : datetime) (other : request -> exn + response),
    sub_days (clock w (ticks w)) days = inr start ->
    other (search_request self K limit start (clock w (ticks w)))
    = transport w (search_request self K limit start (clock w (ticks w))) ->
    let run := search_opportunities self K days limit w in
    let run' := search_opportunities self K days limit (set_transport other w) in
    fst run' = fst run /\ stdout (snd run') = stdout (snd run).
Proof.
  intros self K days limit w start other Hstart Hsame run run'. subst run run'.
  rewrite (search_opportunities_probe self K days limit w start Hstart).
  rewrite (search_opportunities_probe self K days limit (set_transport other w) start)
    by exact Hstart.
  world_fields. rewrite Hsame. done.
Qed.

(** X9: a window of more than 999999999 days is refused by the date
    arithmetic, which stands before the [try]: the call raises
    [OverflowError], prints nothing and sends nothing. *)
Theorem search_opportunities_window_overflow :
  forall (self : SAMGovScraper) (K : list string) (days limit : Z) (w : world),
    MAX_DELTA_DAYS < Z.abs days ->
    let run := search_opportunities self K days limit w in
    (exists msg : string, fst run = inl (OverflowError msg)) /\
    stdout (snd run) = stdout w /\
    (forall other : request -> exn + response,
       fst (search_opportunities self K days limit (set_transport other w)) = fst run).
Proof.
  intros self K days limit w Hdays run. subst run.
  assert (Hsub : forall dt, sub_days dt days
            = inl (OverflowError "days; must have magnitude <= 999999999")).
  { intros dt. unfold sub_days.
    destruct (MAX_DELTA_DAYS <? Z.abs days) eqn:Hlt; [done|].
    apply Z.ltb_ge in Hlt. lia. }
  rewrite (search_opportunities_raises _ _ _ _ w _ (Hsub _)). world_fields.
  split; [by eexists|]. split; [done|].
  intros other.
  by rewrite (search_opportunities_raises _ _ _ _ (set_transport other w) _ (Hsub _)).
Qed.

(** X10: what the console shows when the transport fails: after a
    connection error without a response, the error line; after an HTTP
    error status, the body, the error line with the status message, and
    the body again; the result is the empty list both times. *)
Theorem search_opportunities_failure_console :
  forall (self : SAMGovScraper) (K : list string) (days limit : Z) (w : world)
         (start : datetime),
    sub_days (clock w (ticks w)) days = inr start ->
    let announced :=
      ["Making request to " ++ base_url self;
       "Parameters: " ++
         py_repr (PyDict (req_params
            (search_request self K limit start (clock w (ticks w)))))] in
    let run := search_opportunities self K days limit w in
    match transport w (search_request self K limit start (clock w (ticks w))) with
    | inl (RequestException _ msg None) =>
        let failed := "Error fetching opportunities: " ++ msg in
        fst run = inr (PyList []) /\
        stdout (snd run) = (stdout w ++ announced ++ [failed])%list
    | inr r =>
        if (400 <=? status_code r) && (status_code r <? 600)
        then
          let kind :=
            if status_code r <? 500 then " Client Error: " else " Server Error: " in
          let failed :=
            "Error fetching opportunities: " ++ int_repr (status_code r) ++
            kind ++ reason r ++ " for url: " ++ url r in
          let body := "Error response: " ++ text r in
          let body_again := "Response text: " ++ text r in
          fst run = inr (PyList []) /\
          stdout (snd run) = (stdout w ++ announced ++ [body; failed; body_again])%list
        else True
    | _ => True
    end.
Proof.
  intros self K days limit w start Hstart announced run. subst announced run.
  rewrite (search_opportunities_unfold _ _ _ _ _ _ Hstart).
  py_run. unfold search_request. world_fields.
  destruct (transport w _) as [[cls msg [t|] | | | | | | | ]|r]; try exact I.
  - cbn. by rewrite <- !app_assoc.
  - destruct ((400 <=? status_code r) && (status_code r <? 600)) eqn:Hrange;
      [|exact I].
    apply andb_true_iff in Hrange as [Hlo Hhi].
    assert (Hne : negb (status_code r =? 200) = true).
    { apply negb_true_iff, Z.eqb_neq. apply Z.leb_le in Hlo. lia. }
    rewrite Hne. unfold http_error. rewrite Hlo. cbn [andb].
    destruct (status_code r <? 500) eqn:Hclient.
    + cbn. by rewrite <- !app_assoc.
    + assert (Hserver : (500 <=? status_code r) = true).
      { apply Z.leb_le. apply Z.ltb_ge in Hclient. lia. }
      rewrite Hserver, Hhi. cbn. by rewrite <- !app_assoc.
Qed.


(** X12: every search whose date window can be computed prints the API
    key: the [Parameters] line on the console contains [repr] of the
    key. *)
Theorem search_opportunities_prints_api_key :
  forall (self : SAMGovScraper) (K : list string) (days limit : Z) (w : world)
         (start : datetime),
    sub_days (clock w (ticks w)) days = inr start ->
    exists line : string,
      In line (stdout (snd (search_opportunities self K days limit w))) /\
      is_substring (str_repr (api_key self)) line.
Proof.
  intros self K days limit w start Hstart.
  destruct (search_opportunities_answer self K days limit w start Hstart)
    as (result & out & ->). world_fields.
  eexists. split.
  - apply in_or_app. right. right. left. reflexivity.
  - destruct (dict_repr_first "api_key" (PyStr (api_key self))
                (List.tl (search_params self K limit (strftime_mdY start)
                            (strftime_mdY (clock w (ticks w))))))
      as (pre & post & Hrepr).
    exists ("Parameters: " ++ pre), post.
    unfold search_request. cbn [req_params].
    unfold search_params in *. cbn [List.tl] in Hrepr. rewrite Hrepr.
    cbn [py_repr]. by rewrite !string_app_assoc.
Qed.

(** X13: what the console shows when the answer has status 200 and a
    JSON object as body: the two announcement lines and nothing more when
    the object has the key [opportunitiesData]; one more line, with the
    [str] of the object, when it has not. *)
Theorem search_opportunities_payload_console :
  forall (self : SAMGovScraper) (K : list string) (days limit : Z) (w : world)
         (start : datetime) (r : response) (entries : dict),
    sub_days (clock w (ticks w)) days = inr start ->
    transport w (search_request self K limit start (clock w (ticks w))) = inr r ->
    status_code r = 200 ->
    json r = inr (PyDict entries) ->
    let announced :=
      ["Making request to " ++ base_url self;
       "Parameters: " ++
         py_repr (PyDict (req_params
            (search_request self K limit start (clock w (ticks w)))))] in
    let unexpected := "Unexpected response format: " ++ py_str (PyDict entries) in
    let run := search_opportunities self K days limit w in
    match dict_lookup entries "opportunitiesData" with
    | Some _ => stdout (snd run) = (stdout w ++ announced)%list
    | None => stdout (snd run) = (stdout w ++ announced ++ [unexpected])%list
    end.
Proof.
  intros self K days limit w start r entries Hstart Hget Hstatus Hjson
    announced unexpected run. subst announced unexpected run.
  rewrite (search_opportunities_unfold _ _ _ _ _ _ Hstart).
  py_run. unfold search_request in *.
  cbn [req_params set_stdout set_ticks transport stdout] in *.
  rewrite Hget. unfold http_error. rewrite Hstatus, Hjson. cbn.
  unfold dict_has.
  destruct (dict_lookup entries "opportunitiesData"); cbn; by rewrite <- !app_assoc.
Qed.

End SearchMore.

(** C6: the [keywords] parameter of the request that
    [search_opportunities] sends. Run against a transport that answers
    with the parameters it was sent, the search returns them, and the one
    under [keywords] is each keyword of [K] between double quotes, the
    quoted keywords joined with [" OR "]: the empty string for no
    keyword, and ["a" OR "b"] with its four quotes for [a] and [b]. *)
Theorem keyword_query_joins_quoted :
  forall (T : PyText) (self : SAMGovScraper) (K : list string) (days limit : Z)
         (w : world) (start : datetime),
    sub_days (clock w (ticks w)) days = inr start ->
    exists params : dict,
      fst (search_opportunities self K days limit (set_transport echo_parameters w))
      = inr (PyDict params) /\
      dict_lookup params "keywords"
      = Some (PyStr (str_join " OR "
                       (List.map (fun k => String dquote (k ++ String dquote "")) K))) /\
      (K = [] -> dict_lookup params "keywords" = Some (PyStr "")) /\
      (K = ["a"; "b"] ->
       dict_lookup params "keywords"
       = Some (PyStr (String dquote
                        ("a" ++ String dquote
                                  (" OR " ++ String dquote ("b" ++ String dquote "")))))).
Proof.
  intros T self K days limit w start Hstart.
  exists (search_params self K limit (strftime_mdY start)
            (strftime_mdY (clock w (ticks w)))).
  split; [|split; [reflexivity | split; intros ->; reflexivity]].
  apply (search_opportunities_on_payload self K days limit
           (set_transport echo_parameters w) start
           (ok_response (PyDict [("opportunitiesData",
              PyDict (search_params self K limit (strftime_mdY start)
                        (strftime_mdY (clock w (ticks w)))))]))
           [("opportunitiesData",
             PyDict (search_params self K limit (strftime_mdY start)
                       (strftime_mdY (clock w (ticks w)))))]);
    done.
Qed.

(** ** More on [save_opportunities], [print_summary] and [main] *)

Section RunMore.
Context `{PyText}.

Lemma set_stdout_twice (a b : list string) (w : world) :
  set_stdout a (set_stdout b w) = set_stdout a w.
Proof. reflexivity. Qed.

Lemma for_each_print_lines (O : list dict) (w : world) :
  for_each O print_opportunity w
  = (inr tt,
     set_stdout (stdout w ++ List.concat (List.map opportunity_lines O))%list w).
Proof.
  revert w. induction O as [|opp O IH]; intros w; cbn [for_each List.map List.concat].
  - rewrite app_nil_r. by destruct w.
  - unfold mbind, py_bind, bind. unfold print_opportunity at 1. py_run.
    rewrite IH. world_fields. rewrite !set_stdout_twice.
    unfold opportunity_lines at 2. by rewrite <- !app_assoc.
Qed.

Lemma print_summary_run (self : SAMGovScraper) (O : list dict) (title : string)
    (w : world) :
  print_summary self O title w
  = (inr tt, set_stdout (stdout w ++ summary_lines O title)%list w).
Proof.
  unfold print_summary. py_run. rewrite for_each_print_lines. world_fields.
  rewrite !set_stdout_twice. unfold summary_lines. by rewrite <- !app_assoc.
Qed.


Ltac save_fields := write_error_frame; world_fields.

Lemma save_opportunities_run (self : SAMGovScraper) (O : list dict)
    (prefix : string) (w : world) :
  let name := saved_filename prefix (clock w (ticks w)) in
  let content := Json.dumps (PyList (List.map PyDict O)) in
  let saved := "Saved " ++ int_repr (py_len O) ++ " opportunities to " ++ name in
  save_opportunities self O prefix w
  = match open_error w name with
    | Some e => (inl e, set_ticks (S (ticks w)) w)
    | None =>
        match write_error w name content with
        | Some (e, written) =>
            (inl e, set_files (<[name := written]> (files w))
                      (set_ticks (S (ticks w)) w))
        | None =>
            (inr tt,
             set_stdout (stdout w ++ [saved])
               (set_files (<[name := content]> (files w))
                  (set_ticks (S (ticks w)) w)))
        end
    end.
Proof.
  intros name content saved. subst name content saved.
  rewrite save_opportunities_unfold. unfold write_text_file. py_run.
  save_fields. destruct (open_error w _); [done|].
  destruct (write_error w _ _) as [[e written]|]; done.
Qed.

(** X15: whatever happens, [save_opportunities] reads the clock once
    and leaves every file but the one it names as it was; it prints its
    confirmation line exactly when it returns normally. *)
Theorem save_opportunities_frame :
  forall (self : SAMGovScraper) (O : list dict) (prefix : string) (w : world),
    let name := saved_filename prefix (clock w (ticks w)) in
    let saved := "Saved " ++ int_repr (py_len O) ++ " opportunities to " ++ name in
    let run := save_opportunities self O prefix w in
    (forall path : string, path <> name -> files (snd run) !! path = files w !! path) /\
    ticks (snd run) = S (ticks w) /\
    match fst run with
    | inr _ => stdout (snd run) = (stdout w ++ [saved])%list
    | inl _ => stdout (snd run) = stdout w
    end.
Proof.
  intros self O prefix w name saved run. subst run.
  pose proof (save_opportunities_run self O prefix w) as Hrun. cbn zeta in Hrun.
  fold name in Hrun. rewrite Hrun.
  destruct (open_error w name); [save_fields; done|].
  destruct (write_error w name _) as [[e written]|]; save_fields;
    (split; [intros path Hpath; by rewrite lookup_insert_ne | done]).
Qed.

(** X16: two saves under one prefix within the same second of the clock
    name the same file: when both succeed, the second replaces what the
    first wrote and one file is left, holding the second list. *)
Theorem save_opportunities_same_second :
  forall (self : SAMGovScraper) (O1 O2 : list dict) (prefix : string) (w : world),
    let name := saved_filename prefix (clock w (ticks w)) in
    clock w (S (ticks w)) = clock w (ticks w) ->
    open_error w name = None ->
    write_error w name (Json.dumps (PyList (List.map PyDict O1))) = None ->
    write_error w name (Json.dumps (PyList (List.map PyDict O2))) = None ->
    let run := (save_opportunities self O1 prefix;;
                save_opportunities self O2 prefix) w in
    fst run = inr tt /\
    files (snd run) = <[name := Json.dumps (PyList (List.map PyDict O2))]> (files w).
Proof.
  intros self O1 O2 prefix w name Hclock Hopen Hwrite1 Hwrite2 run. subst run.
  unfold mbind, py_bind, bind.
  pose proof (save_opportunities_run self O1 prefix w) as Hrun1. cbn zeta in Hrun1.
  fold name in Hrun1. rewrite Hopen, Hwrite1 in Hrun1. rewrite Hrun1.
  match goal with |- context [save_opportunities self O2 prefix ?w1] =>
    pose proof (save_opportunities_run self O2 prefix w1) as Hrun2
  end.
  cbn zeta in Hrun2. save_fields. rewrite Hclock in Hrun2. fold name in Hrun2.
  rewrite Hopen, Hwrite2 in Hrun2. rewrite Hrun2. save_fields.
  split; [done|]. apply insert_insert_eq.
Qed.

Lemma map_PyDict_inj (O1 O2 : list dict) :
  List.map PyDict O1 = List.map PyDict O2 -> O1 = O2.
Proof.
  revert O2. induction O1 as [|a O1 IH]; intros [|b O2] Hmap;
    try discriminate; [done|].
  cbn in Hmap. injection Hmap as -> Hmap. f_equal. by apply IH.
Qed.

(** X17: the content of the file determines the list that was saved:
    two lists of opportunities (dictionaries with unique keys) that
    serialize to the same text are equal. *)
Theorem saved_content_determines_opportunities :
  forall O1 O2 : list dict,
    forallb well_formed (List.map PyDict O1) = true ->
    forallb well_formed (List.map PyDict O2) = true ->
    Json.dumps (PyList (List.map PyDict O1)) = Json.dumps (PyList (List.map PyDict O2)) ->
    O1 = O2.
Proof.
  intros O1 O2 Hwf1 Hwf2 Hsame.
  pose proof (loads_dumps (PyList (List.map PyDict O1)) Hwf1) as H1.
  pose proof (loads_dumps (PyList (List.map PyDict O2)) Hwf2) as H2.
  rewrite Hsame, H2 in H1. injection H1 as Hmap.
  symmetry. by apply map_PyDict_inj.
Qed.

(** The run of [main] after a search that returned the list [O]. *)
Lemma main_run (key : string) (w : world) (start : datetime) (O : list dict) :
  let searching := set_stdout (stdout w ++ ["Searching for opportunities..."]) w in
  let filtered := filter_opportunities O ["python"; "aws"] in
  let all_name := saved_filename "all_opportunities" (clock w (S (ticks w))) in
  let filtered_name :=
    saved_filename "filtered_opportunities" (clock w (S (S (ticks w)))) in
  sub_days (clock w (ticks w)) 30 = inr start ->
  fst (search_opportunities (new_scraper key) ["software"; "development"; "cloud"]
         30 100 searching)
  = inr (PyList (List.map PyDict O)) ->
  open_error w all_name = None ->
  write_error w all_name (Json.dumps (PyList (List.map PyDict O))) = None ->
  open_error w filtered_name = None ->
  write_error w filtered_name (Json.dumps (PyList (List.map PyDict filtered))) = None ->
  fst (main key w) = inr tt /\
  files (snd (main key w))
  = <[filtered_name := Json.dumps (PyList (List.map PyDict filtered))]>
      (<[all_name := Json.dumps (PyList (List.map PyDict O))]> (files w)) /\
  exists out : list string,
    stdout (snd (main key w))
    = (stdout w ++ out ++
       [saved_line O all_name; saved_line filtered filtered_name] ++
       summary_lines O "All Opportunities" ++
       summary_lines filtered "Filtered Opportunities")%list.
Proof.
  intros searching filtered all_name filtered_name Hstart Hfound
    Hopen1 Hwrite1 Hopen2 Hwrite2.
  destruct (search_opportunities_answer (new_scraper key)
              ["software"; "development"; "cloud"] 30 100 searching start Hstart)
    as (result & out & Hsearch).
  rewrite Hsearch in Hfound. cbn [fst] in Hfound. subst result.
  rewrite (main_unfold key w _ O Hsearch). fold filtered.
  unfold mbind, py_bind, bind.
  match goal with |- context [save_opportunities _ O "all_opportunities" ?w1] =>
    pose proof (save_opportunities_run (new_scraper key) O "all_opportunities" w1)
      as Hrun1
  end.
  cbn zeta in Hrun1. subst searching. save_fields. fold all_name in Hrun1.
  rewrite Hopen1, Hwrite1 in Hrun1. rewrite Hrun1.
  match goal with
  | |- context [save_opportunities _ filtered "filtered_opportunities" ?w2] =>
    pose proof (save_opportunities_run (new_scraper key) filtered
                  "filtered_opportunities" w2) as Hrun2
  end.
  cbn zeta in Hrun2. save_fields. fold filtered_name in Hrun2.
  rewrite Hopen2, Hwrite2 in Hrun2. rewrite Hrun2.
  rewrite !print_summary_run. save_fields. split; [done|]. split; [done|].
  match type of Hsearch with
  | context [(_ ++ ?announced ++ out)%list] =>
      exists (["Searching for opportunities..."] ++ announced ++ out)%list
  end.
  unfold saved_line. rewrite <- !app_assoc. reflexivity.
Qed.

(** X18: the run of [main] on a successful search. When the answer has
    status 200 and holds a list of dictionaries under
    [opportunitiesData], and the file system accepts both writes, [main]
    returns normally and the files are those of before plus two: the
    whole list under the [all_opportunities] name and the opportunities
    that mention both [python] and [aws] under the
    [filtered_opportunities] name, each name stamped with the clock
    reading of its own save; the console ends with the two confirmation
    lines followed by the summary of the whole list and the summary of
    the filtered one. *)
Theorem main_saves_all_and_filtered :
  forall (key : string) (w : world) (start : datetime) (r : response)
         (entries : dict) (O : list dict),
    let filtered := filter_opportunities O ["python"; "aws"] in
    let all_name := saved_filename "all_opportunities" (clock w (S (ticks w))) in
    let filtered_name :=
      saved_filename "filtered_opportunities" (clock w (S (S (ticks w)))) in
    sub_days (clock w (ticks w)) 30 = inr start ->
    transport w (search_request (new_scraper key)
                   ["software"; "development"; "cloud"] 100 start
                   (clock w (ticks w))) = inr r ->
    status_code r = 200 ->
    json r = inr (PyDict entries) ->
    dict_lookup entries "opportunitiesData" = Some (PyList (List.map PyDict O)) ->
    open_error w all_name = None ->
    write_error w all_name (Json.dumps (PyList (List.map PyDict O))) = None ->
    open_error w filtered_name = None ->
    write_error w filtered_name (Json.dumps (PyList (List.map PyDict filtered))) = None ->
    fst (main key w) = inr tt /\
    files (snd (main key w))
    = <[filtered_name := Json.dumps (PyList (List.map PyDict filtered))]>
        (<[all_name := Json.dumps (PyList (List.map PyDict O))]> (files w)) /\
    exists out : list string,
      stdout (snd (main key w))
      = (stdout w ++ out ++
         [saved_line O all_name; saved_line filtered filtered_name] ++
         summary_lines O "All Opportunities" ++
         summary_lines filtered "Filtered Opportunities")%list.
Proof.
  intros key w start r entries O filtered all_name filtered_name
    Hstart Hget Hstatus Hjson Hkey Hopen1 Hwrite1 Hopen2 Hwrite2.
  apply (main_run key w start O); try done.
  by apply (search_opportunities_on_payload _ _ _ _ _ start r entries).
Qed.

(** X19: the run of [main] after a failed search. The failure was
    turned into the empty list, so [main] goes on as for a search without
    results: it returns normally and writes both files, each holding the
    empty JSON array. *)
Theorem main_after_failed_search :
  forall (key : string) (w : world) (start : datetime) (msg : string),
    let all_name := saved_filename "all_opportunities" (clock w (S (ticks w))) in
    let filtered_name :=
      saved_filename "filtered_opportunities" (clock w (S (S (ticks w)))) in
    sub_days (clock w (ticks w)) 30 = inr start ->
    transport_failure
      (transport w (search_request (new_scraper key)
                      ["software"; "development"; "cloud"] 100 start
                      (clock w (ticks w)))) msg ->
    open_error w all_name = None ->
    write_error w all_name "[]" = None ->
    open_error w filtered_name = None ->
    write_error w filtered_name "[]" = None ->
    fst (main key w) = inr tt /\
    files (snd (main key w))
    = <[filtered_name := "[]"]> (<[all_name := "[]"]> (files w)).
Proof.
  intros key w start msg all_name filtered_name Hstart Hfail
    Hopen1 Hwrite1 Hopen2 Hwrite2.
  destruct (main_run key w start [] Hstart) as (Hret & Hfiles & _); try done.
  by apply (search_opportunities_on_failure _ _ _ _ _ start msg).
Qed.

(** The outcome of the save of an arbitrary object. *)
Lemma save_object_run (self : SAMGovScraper) (o : pyobj) (prefix : string)
    (w : world) :
  let name := saved_filename prefix (clock w (ticks w)) in
  let content := Json.dumps o in
  save_object self o prefix w
  = match open_error w name with
    | Some e => (inl e, set_ticks (S (ticks w)) w)
    | None =>
        match write_error w name content with
        | Some (e, written) =>
            (inl e, set_files (<[name := written]> (files w))
                      (set_ticks (S (ticks w)) w))
        | None =>
            match py_len_obj o with
            | inl e =>
                (inl e, set_files (<[name := content]> (files w))
                          (set_ticks (S (ticks w)) w))
            | inr count =>
                (inr tt,
                 set_stdout
                   (stdout w ++
                    ["Saved " ++ int_repr count ++ " opportunities to " ++ name])
                   (set_files (<[name := content]> (files w))
                      (set_ticks (S (ticks w)) w)))
            end
        end
    end.
Proof.
  intros name content. subst name content.
  unfold save_object, saved_filename, strftime_YmdHMS, write_text_file, datetime_now.
  py_run. rewrite !string_app_assoc. save_fields.
  destruct (open_error w _); [done|].
  destruct (write_error w _ _) as [[e written]|]; [done|].
  destruct (py_len_obj o); done.
Qed.

Lemma filter_items_not_dict (M : list string) (O : list dict) (item : pyobj)
    (rest : list pyobj) (filtered : list dict) :
  (forall d : dict, item <> PyDict d) ->
  filter_items M (List.map PyDict O ++ item :: rest)%list filtered
  = inl (no_attribute item "get").
Proof.
  intros Hitem. revert filtered.
  induction O as [|opp O IH]; intros filtered; cbn [List.map app filter_items].
  - destruct item; try done. by destruct (Hitem entries).
  - apply IH.
Qed.

Lemma str_chars_cons (c : ascii) (s : string) :
  exists (x : string) (xs : list string), str_chars (String c s) = x :: xs.
Proof.
  cbn [str_chars]. destruct s as [|d s']; [by eexists _, _|].
  destruct (is_continuation d); [|by eexists _, _].
  destruct (str_chars (String d s')); by eexists _, _.
Qed.

(** X20: [main] on a payload whose [opportunitiesData] is not a list of
    objects. Nothing checks the value: the first save writes its JSON
    text to the [all_opportunities] file, and only then the run ends with
    an exception: [TypeError] from [len] on [null], a boolean or a
    number; [AttributeError] from [opp.get] on the first item that is not
    an object, on the first character of a string, or on the first key of
    an object. The [filtered_opportunities] file is not written. *)
Theorem main_on_malformed_payload :
  forall (key : string) (w : world) (start : datetime) (r : response)
         (entries : dict) (found : pyobj),
    let all_name := saved_filename "all_opportunities" (clock w (S (ticks w))) in
    sub_days (clock w (ticks w)) 30 = inr start ->
    transport w (search_request (new_scraper key)
                   ["software"; "development"; "cloud"] 100 start
                   (clock w (ticks w))) = inr r ->
    status_code r = 200 ->
    json r = inr (PyDict entries) ->
    dict_lookup entries "opportunitiesData" = Some found ->
    open_error w all_name = None ->
    write_error w all_name (Json.dumps found) = None ->
    let run := main key w in
    let ends_after_first_save (e : exn) :=
      fst run = inl e /\
      files (snd run) = <[all_name := Json.dumps found]> (files w) in
    match found with
    | PyNone => ends_after_first_save (TypeError "object of type 'NoneType' has no len()")
    | PyBool _ => ends_after_first_save (TypeError "object of type 'bool' has no len()")
    | PyInt _ => ends_after_first_save (TypeError "object of type 'int' has no len()")
    | PyStr s =>
        s <> "" ->
        ends_after_first_save (AttributeError "'str' object has no attribute 'get'")
    | PyDict fields =>
        fields <> [] ->
        ends_after_first_save (AttributeError "'str' object has no attribute 'get'")
    | PyList items =>
        forall (O : list dict) (item : pyobj) (rest : list pyobj),
          items = (List.map PyDict O ++ item :: rest)%list ->
          (forall d : dict, item <> PyDict d) ->
          ends_after_first_save
            (AttributeError ("'" ++ py_type_name item ++
                             "' object has no attribute 'get'"))
    end.
Proof.
  intros key w start r entries found all_name Hstart Hget Hstatus Hjson Hkey
    Hopen Hwrite run ends_after_first_save.
  subst run ends_after_first_save. cbn beta.
  set (searching := set_stdout (stdout w ++ ["Searching for opportunities..."]) w).
  destruct (search_opportunities_answer (new_scraper key)
              ["software"; "development"; "cloud"] 30 100 searching start Hstart)
    as (result & out & Hsearch).
  pose proof (search_opportunities_on_payload (new_scraper key)
                ["software"; "development"; "cloud"] 30 100 searching start r
                entries found Hstart Hget Hstatus Hjson Hkey) as Hfound.
  rewrite Hsearch in Hfound. cbn [fst] in Hfound. subst result.
  assert (Hmain : forall e : exn,
            (exists count : Z, py_len_obj found = inr count /\
                               filter_object found ["python"; "aws"] = inl e) \/
            py_len_obj found = inl e ->
            fst (main key w) = inl e /\
            files (snd (main key w)) = <[all_name := Json.dumps found]> (files w)).
  { intros e Hends.
    assert (Hrun : exists w' : world,
              main key w = (inl e, w') /\
              files w' = <[all_name := Json.dumps found]> (files w)).
    { unfold main. cbv beta iota zeta delta [mbind py_bind].
      unfold bind at 1 2, print at 1. cbn beta iota. fold searching.
      rewrite Hsearch. unfold bind at 1. rewrite save_object_run. cbn zeta.
      subst searching. save_fields. fold all_name. rewrite Hopen, Hwrite.
      destruct Hends as [(count & Hlen & Hfilter)|Hlen]; rewrite Hlen.
      - unfold bind at 1. rewrite Hfilter. by eexists.
      - by eexists. }
    destruct Hrun as (w' & -> & Hfiles). done. }
  destruct found as [ | b | z | s | items | fields].
  - apply Hmain. by right.
  - apply Hmain. by right.
  - apply Hmain. by right.
  - intros Hs. apply Hmain. left. eexists. split; [reflexivity|].
    destruct s as [|c s]; [done|].
    destruct (str_chars_cons c s) as (x & xs & Hchars).
    unfold filter_object, py_iter. by rewrite Hchars.
  - intros O item rest -> Hitem. apply Hmain. left. eexists. split; [reflexivity|].
    unfold filter_object, py_iter. by rewrite filter_items_not_dict.
  - intros Hfields. apply Hmain. left. eexists. split; [reflexivity|].
    by destruct fields as [|[k v] fields].
Qed.

End RunMore.



(** ** The statements at concrete runs *)

Lemma filter_opportunities_keeps_iff_witness :
  dict_lookup [("title", PyStr "AWS Cloud Project")] "title"
  = Some (PyStr "AWS Cloud Project") /\
  In [("title", PyStr "AWS Cloud Project")]
     (@filter_opportunities ascii_text
        [no_description; [("title", PyStr "AWS Cloud Project")]] ["aws"]).
Proof.
  split; [reflexivity|].
  exact (proj2 filter_opportunities_keeps_iff
           [no_description; [("title", PyStr "AWS Cloud Project")]]
           [("title", PyStr "AWS Cloud Project")]
           eq_refl (or_intror (or_introl eq_refl))).
Defined.

Lemma search_opportunities_catches_transport_failures_witness :
  sub_days at_noon 30 = inr window_start /\
  transport_failure (inl connection_error) "Connection refused" /\
  fst (@search_opportunities ascii_text (new_scraper "key") ["software"] 30 100
         (quiet_world (fun _ => inl connection_error)))
  = inr (PyList []).
Proof.
  assert (Hstart : sub_days at_noon 30 = inr window_start)
    by (vm_compute; reflexivity).
  assert (Hfail : transport_failure (inl connection_error) "Connection refused")
    by constructor.
  split; [exact Hstart|]. split; [exact Hfail|].
  exact (proj1 (proj2 (search_opportunities_catches_transport_failures (H := ascii_text))
           (new_scraper "key") ["software"] 30 100
           (quiet_world (fun _ => inl connection_error))
           window_start "Connection refused" Hstart Hfail)).
Defined.

Lemma keyword_query_joins_quoted_witness :
  sub_days at_noon 30 = inr window_start /\
  exists params : dict,
    fst (@search_opportunities ascii_text (new_scraper "key") ["a"; "b"] 30 100
           (set_transport echo_parameters refusing_world))
    = inr (PyDict params) /\
    dict_lookup params "keywords"
    = Some (PyStr (String dquote
                     ("a" ++ String dquote
                               (" OR " ++ String dquote ("b" ++ String dquote ""))))).
Proof.
  assert (Hstart : sub_days at_noon 30 = inr window_start)
    by (vm_compute; reflexivity).
  split; [exact Hstart|].
  destruct (keyword_query_joins_quoted ascii_text (new_scraper "key") ["a"; "b"]
              30 100 refusing_world window_start Hstart)
    as (params & Hrun & _ & _ & Hab).
  exact (ex_intro _ params (conj Hrun (Hab eq_refl))).
Defined.

Lemma search_opportunities_payload_witness :
  sub_days at_noon 30 = inr window_start /\
  fst (@search_opportunities ascii_text (new_scraper "key") ["software"] 30 100
         (quiet_world (fun _ => inr (ok_response PyNone))))
  = inl (TypeError "argument of type 'NoneType' is not iterable") /\
  fst (@search_opportunities ascii_text (new_scraper "key") ["software"] 30 100
         (quiet_world (fun _ => inr (ok_response (PyDict [("other", PyList [])])))))
  = inr (PyList []) /\
  fst (@search_opportunities ascii_text (new_scraper "key") ["software"] 30 100
         (quiet_world (fun _ => inr (ok_response
            (PyDict [("opportunitiesData", PyList (List.map PyDict two_opportunities))])))))
  = inr (PyList (List.map PyDict two_opportunities)).
Proof.
  assert (Hstart : sub_days at_noon 30 = inr window_start)
    by (vm_compute; reflexivity).
  split; [exact Hstart|]. split; [|split].
  - exact (proj1 (search_opportunities_payload (H := ascii_text)
             (new_scraper "key") ["software"] 30 100
             (quiet_world (fun _ => inr (ok_response PyNone)))
             window_start (ok_response PyNone) PyNone
             Hstart eq_refl eq_refl eq_refl)).
  - exact (proj1 (search_opportunities_payload (H := ascii_text)
             (new_scraper "key") ["software"] 30 100
             (quiet_world (fun _ => inr (ok_response (PyDict [("other", PyList [])]))))
             window_start (ok_response (PyDict [("other", PyList [])]))
             (PyDict [("other", PyList [])]) Hstart eq_refl eq_refl eq_refl)).
  - exact (proj1 (search_opportunities_payload (H := ascii_text)
             (new_scraper "key") ["software"] 30 100
             (quiet_world (fun _ => inr (ok_response
                (PyDict [("opportunitiesData", PyList (List.map PyDict two_opportunities))]))))
             window_start
             (ok_response
                (PyDict [("opportunitiesData", PyList (List.map PyDict two_opportunities))]))
             (PyDict [("opportunitiesData", PyList (List.map PyDict two_opportunities))])
             Hstart eq_refl eq_refl eq_refl)).
Defined.

Lemma save_opportunities_propagates_errors_witness :
  open_error (read_only_world (fun _ => inl connection_error))
             (saved_filename "all_opportunities" at_noon)
  = Some (OSError "Read-only file system") /\
  fst (save_opportunities (new_scraper "key") two_opportunities
         "all_opportunities" (read_only_world (fun _ => inl connection_error)))
  = inl (OSError "Read-only file system").
Proof.
  split; [reflexivity|].
  exact (proj1 (proj1 save_opportunities_propagates_errors
                  (new_scraper "key") two_opportunities "all_opportunities"
                  (read_only_world (fun _ => inl connection_error))
                  (OSError "Read-only file system") eq_refl)).
Defined.




Lemma main_on_malformed_payload_witness :
  sub_days at_noon 30 = inr window_start /\
  fst (@main ascii_text "key"
         (quiet_world (fun _ => inr (ok_response
            (PyDict [("opportunitiesData", PyNone)])))))
  = inl (TypeError "object of type 'NoneType' has no len()").
Proof.
  assert (Hstart : sub_days at_noon 30 = inr window_start)
    by (vm_compute; reflexivity).
  split; [exact Hstart|].
  exact (proj1 (main_on_malformed_payload (H := ascii_text) "key"
                  (quiet_world (fun _ => inr (ok_response
                     (PyDict [("opportunitiesData", PyNone)]))))
                  window_start
                  (ok_response (PyDict [("opportunitiesData", PyNone)]))
                  [("opportunitiesData", PyNone)] PyNone
                  Hstart eq_refl eq_refl eq_refl eq_refl eq_refl eq_refl)).
Defined.

Lemma filter_opportunities_keyword_set_witness :
  (forall k : string,
     In k (List.map (@str_lower ascii_text) ["AWS"; "aws"]) <->
     In k (List.map (@str_lower ascii_text) ["aws"])) /\
  @filter_opportunities ascii_text two_opportunities ["AWS"; "aws"]
  = @filter_opportunities ascii_text two_opportunities ["aws"].
Proof.
  assert (Hsame : forall k : string,
            In k (List.map (@str_lower ascii_text) ["AWS"; "aws"]) <->
            In k (List.map (@str_lower ascii_text) ["aws"]))
    by (intros k; vm_compute; tauto).
  split; [exact Hsame|].
  exact (filter_opportunities_keyword_set ascii_text two_opportunities
           ["AWS"; "aws"] ["aws"] Hsame).
Defined.

Lemma filter_opportunities_reads_four_fields_witness :
  dict_lookup no_description "title" = dict_lookup road_repair_noticed "title" /\
  (@filter_opportunities ascii_text [no_description] ["road"] = [no_description] /\
   @filter_opportunities ascii_text [road_repair_noticed] ["road"]
   = [road_repair_noticed] \/
   @filter_opportunities ascii_text [no_description] ["road"] = [] /\
   @filter_opportunities ascii_text [road_repair_noticed] ["road"] = []).
Proof.
  split; [reflexivity|].
  exact (proj2 (filter_opportunities_reads_four_fields ascii_text ["road"]
                  no_description road_repair_noticed
                  eq_refl eq_refl eq_refl eq_refl [] [])).
Defined.

Lemma filter_opportunities_monotone_witness :
  [no_description] `sublist_of` [no_description; null_description] /\
  @filter_opportunities ascii_text [no_description] ["road"]
  `sublist_of` @filter_opportunities ascii_text [no_description; null_description] ["road"].
Proof.
  assert (Hsub : [no_description] `sublist_of` [no_description; null_description])
    by (apply sublist_skip, sublist_cons, sublist_nil).
  split; [exact Hsub|].
  exact (proj1 (filter_opportunities_monotone ascii_text [no_description]
                  [no_description; null_description] ["road"] Hsub)).
Defined.

Lemma search_opportunities_one_request_witness :
  sub_days at_noon 30 = inr window_start /\
  fst (@search_opportunities ascii_text (new_scraper "key") ["software"] 30 100
         (set_transport
            (fun r => match req_params r with
                      | [] => inr (ok_response PyNone)
                      | _ :: _ => inl connection_error
                      end)
            refusing_world))
  = fst (@search_opportunities ascii_text (new_scraper "key") ["software"] 30 100
           refusing_world).
Proof.
  assert (Hstart : sub_days at_noon 30 = inr window_start)
    by (vm_compute; reflexivity).
  split; [exact Hstart|].
  exact (proj1 (search_opportunities_one_request (H := ascii_text)
                  (new_scraper "key") ["software"] 30 100 refusing_world window_start
                  (fun r => match req_params r with
                            | [] => inr (ok_response PyNone)
                            | _ :: _ => inl connection_error
                            end)
                  Hstart eq_refl)).
Defined.

Lemma search_opportunities_window_overflow_witness :
  MAX_DELTA_DAYS < Z.abs 1000000000 /\
  exists msg : string,
    fst (@search_opportunities ascii_text (new_scraper "key") ["software"]
           1000000000 100 refusing_world)
    = inl (OverflowError msg).
Proof.
  split; [reflexivity|].
  exact (proj1 (search_opportunities_window_overflow (H := ascii_text)
                  (new_scraper "key") ["software"] 1000000000 100 refusing_world
                  eq_refl)).
Defined.

Lemma search_opportunities_failure_console_witness :
  sub_days at_noon 30 = inr window_start /\
  fst (@search_opportunities ascii_text (new_scraper "key") ["software"] 30 100
         refusing_world)
  = inr (PyList []).
Proof.
  assert (Hstart : sub_days at_noon 30 = inr window_start)
    by (vm_compute; reflexivity).
  split; [exact Hstart|].
  pose proof (search_opportunities_failure_console (H := ascii_text)
                (new_scraper "key") ["software"] 30 100 refusing_world window_start
                Hstart) as Hconsole.
  hnf in Hconsole. exact (proj1 Hconsole).
Defined.


Lemma search_opportunities_prints_api_key_witness :
  sub_days at_noon 30 = inr window_start /\
  exists line : string,
    In line (stdout (snd (@search_opportunities ascii_text (new_scraper "key")
                            ["software"] 30 100 refusing_world))) /\
    is_substring (@str_repr ascii_text "key") line.
Proof.
  assert (Hstart : sub_days at_noon 30 = inr window_start)
    by (vm_compute; reflexivity).
  split; [exact Hstart|].
  exact (search_opportunities_prints_api_key (H := ascii_text)
           (new_scraper "key") ["software"] 30 100 refusing_world window_start Hstart).
Defined.

Lemma save_opportunities_same_second_witness :
  clock refusing_world 1 = clock refusing_world 0 /\
  fst ((save_opportunities (new_scraper "key") two_opportunities "all_opportunities";;
        save_opportunities (new_scraper "key") [] "all_opportunities") refusing_world)
  = inr tt.
Proof.
  split; [reflexivity|].
  exact (proj1 (save_opportunities_same_second (new_scraper "key")
                  two_opportunities [] "all_opportunities" refusing_world
                  eq_refl eq_refl eq_refl eq_refl)).
Defined.

Lemma saved_content_determines_opportunities_witness :
  forallb well_formed (List.map PyDict two_opportunities) = true /\
  two_opportunities = two_opportunities.
Proof.
  split; [reflexivity|].
  exact (saved_content_determines_opportunities two_opportunities two_opportunities
           eq_refl eq_refl eq_refl).
Defined.

Lemma main_saves_all_and_filtered_witness :
  sub_days at_noon 30 = inr window_start /\
  fst (@main ascii_text "key" found_world) = inr tt.
Proof.
  assert (Hstart : sub_days at_noon 30 = inr window_start)
    by (vm_compute; reflexivity).
  split; [exact Hstart|].
  exact (proj1 (main_saves_all_and_filtered (H := ascii_text) "key" found_world
                  window_start
                  (ok_response
                     (PyDict [("opportunitiesData",
                               PyList (List.map PyDict two_opportunities))]))
                  [("opportunitiesData", PyList (List.map PyDict two_opportunities))]
                  two_opportunities
                  Hstart eq_refl eq_refl eq_refl eq_refl
                  eq_refl eq_refl eq_refl eq_refl)).
Defined.

Lemma main_after_failed_search_witness :
  sub_days at_noon 30 = inr window_start /\
  transport_failure (inl connection_error) "Connection refused" /\
  fst (@main ascii_text "key" refusing_world) = inr tt.
Proof.
  assert (Hstart : sub_days at_noon 30 = inr window_start)
    by (vm_compute; reflexivity).
  assert (Hfail : transport_failure (inl connection_error) "Connection refused")
    by constructor.
  split; [exact Hstart|]. split; [exact Hfail|].
  exact (proj1 (main_after_failed_search (H := ascii_text) "key" refusing_world
                  window_start "Connection refused" Hstart Hfail
                  eq_refl eq_refl eq_refl eq_refl)).
Defined.

Lemma search_opportunities_payload_console_witness :
  sub_days at_noon 30 = inr window_start /\
  let announced :=
    ["Making request to " ++ base_url (new_scraper "key");
     "Parameters: " ++
       @py_repr ascii_text (PyDict (req_params
          (search_request (new_scraper "key") ["software"] 100 window_start
             (clock found_world (ticks found_world)))))] in
  stdout (snd (@search_opportunities ascii_text (new_scraper "key") ["software"]
                 30 100 found_world))
  = (stdout found_world ++ announced)%list.
Proof.
  assert (Hstart : sub_days at_noon 30 = inr window_start)
    by (vm_compute; reflexivity).
  split; [exact Hstart|].
  exact (search_opportunities_payload_console (H := ascii_text)
           (new_scraper "key") ["software"] 30 100 found_world window_start
           (ok_response
              (PyDict [("opportunitiesData",
                        PyList (List.map PyDict two_opportunities))]))
           [("opportunitiesData", PyList (List.map PyDict two_opportunities))]
           Hstart eq_refl eq_refl eq_refl).
Defined.
